(** * Package recognition and assembly of scancode-toolkit (packagedcode)

    A shallow embedding of [packagedcode/__init__.py], [about.py],
    [bower.py] and [cargo.py]: the handler registry, the [parse] step of the
    four handlers whose code is present, and their [assemble] step over a
    resource arena.  Documents loaded by [toml.load], [json.load] and
    [saneyaml.load] are values of [pyval]; a generator is a computation
    that records what it yields, the codebase it leaves and how it ends. *)

From Stdlib Require Import ZArith Ascii String.
From stdpp Require Import base option list strings gmap.

Local Open Scope string_scope.
Local Open Scope Z_scope.
Set Warnings "-register-all".

(** ** Python values *)

(** What the three loaders hand to [parse]: [None], booleans, integers,
    strings, lists and string-keyed dicts in insertion order. *)
Inductive pyval : Type :=
| PNone
| PBool (b : bool)
| PInt (z : Z)
| PStr (s : string)
| PList (l : list pyval)
| PDict (d : list (string * pyval)).

(** A value the code builds with a library printer or by formatting, kept
    symbolic: the value itself, [repr(v)], [saneyaml.dump(v)], the f-string
    [f'{a}+{b}'], or a Python list of such values. *)
Inductive rendered : Type :=
| Raw (v : pyval)
| Repr (v : pyval)
| YamlDump (v : pyval)
| Plus (a b : pyval)
| ListOf (l : list rendered).

(** The exceptions the modelled code can raise. *)
Inductive exn : Type :=
| AttributeError
| TypeError
| ValueError
| UnboundLocalError
| UnknownPackageDatasource.

Inductive result (A : Type) : Type :=
| Ok (a : A)
| Raise (e : exn).
Arguments Ok {A} a.
Arguments Raise {A} e.

Definition rbind {A B} (m : result A) (k : A -> result B) : result B :=
  match m with
  | Ok a => k a
  | Raise e => Raise e
  end.

Declare Scope result_scope.
Delimit Scope result_scope with result.
Notation "x <- m ;; k" := (rbind m (fun x => k))
  (at level 100, m at next level, right associativity) : result_scope.
Notation "m ;;; k" := (rbind m (fun _ => k))
  (at level 100, right associativity) : result_scope.

(** Python truth value of a loaded document. *)
Definition truthy (v : pyval) : bool :=
  match v with
  | PNone => false
  | PBool b => b
  | PInt z => negb (z =? 0)
  | PStr s => negb (String.eqb s "")
  | PList l => match l with [] => false | _ => true end
  | PDict d => match d with [] => false | _ => true end
  end.

(** [a or b] *)
Definition py_or (a b : pyval) : pyval := if truthy a then a else b.

(** First binding of [k]: a dict holds a key once. *)
Fixpoint assoc {A} (k : string) (d : list (string * A)) : option A :=
  match d with
  | [] => None
  | (k', v) :: d' => if String.eqb k k' then Some v else assoc k d'
  end.

(** [d.get(k, dflt)] on a dict. *)
Definition dict_get (d : list (string * pyval)) (k : string) (dflt : pyval) : pyval :=
  default dflt (assoc k d).

(** [v.get(k, dflt)]: only a dict has the method. *)
Definition py_get (v : pyval) (k : string) (dflt : pyval) : result pyval :=
  match v with
  | PDict d => Ok (dict_get d k dflt)
  | _ => Raise AttributeError
  end.

(** [v.items()] *)
Definition py_items (v : pyval) : result (list (string * pyval)) :=
  match v with
  | PDict d => Ok d
  | _ => Raise AttributeError
  end.

(** [for x in v]: lists are walked in order, a dict gives its keys, a
    string its characters; nothing else is iterable. *)
Definition py_iter (v : pyval) : result (list pyval) :=
  match v with
  | PList l => Ok l
  | PDict d => Ok (map (fun kv => PStr kv.1) d)
  | PStr s => Ok (map (fun a => PStr (String a EmptyString)) (list_ascii_of_string s))
  | _ => Raise TypeError
  end.

(** [s.endswith(suffix)] *)
Definition endswith (s suffix : string) : bool :=
  let n := String.length s in
  let m := String.length suffix in
  (m <=? n)%nat && String.eqb (substring (n - m) m s) suffix.


(** Whitespace that [str.strip()] removes, among the ASCII characters. *)
Definition is_space (a : ascii) : bool :=
  let n := nat_of_ascii a in
  ((9 <=? n) && (n <=? 13) || (28 <=? n) && (n <=? 32))%nat.

(** [s.lstrip(chars)] for the characters selected by [p]. *)
Fixpoint lstrip_with (p : ascii -> bool) (s : string) : string :=
  match s with
  | EmptyString => EmptyString
  | String a s' => if p a then lstrip_with p s' else s
  end.

(** [s.strip(chars)] for the characters selected by [p]. *)
Definition strip_with (p : ascii -> bool) (s : string) : string :=
  String.rev (lstrip_with p (String.rev (lstrip_with p s))).

(** [s.strip()] *)
Definition strip (s : string) : string := strip_with is_space s.

(** The character that is the one-character string [c]. *)
Definition is_char (c : string) (a : ascii) : bool :=
  String.eqb (String a EmptyString) c.

(** [v.strip()]: a string method. *)
Definition py_strip (v : pyval) : result pyval :=
  match v with
  | PStr s => Ok (PStr (strip s))
  | _ => Raise AttributeError
  end.

(** [keywords.extend(categories)]: only a list has the method, and its
    argument has to be iterable. *)
Definition py_extend (v w : pyval) : result pyval :=
  match v with
  | PList l => (ws <- py_iter w ;; Ok (PList (l ++ ws)%list))%result
  | _ => Raise AttributeError
  end.

(** [d.pop(k, dflt)]: the value popped and the dict left. *)
Definition dict_pop (d : list (string * pyval)) (k : string) (dflt : pyval)
  : pyval * list (string * pyval) :=
  (dict_get d k dflt, List.filter (fun kv => negb (String.eqb k kv.1)) d).

(** Loop over a list with an accumulator, stopping at the first error. *)
Fixpoint rfold {A B} (f : B -> A -> result B) (l : list A) (b : B) : result B :=
  match l with
  | [] => Ok b
  | x :: l' => (b' <- f b x ;; rfold f l' b')%result
  end.

(** ** The data model ([packagedcode.models], as the handlers build it) *)

Record Party : Type := mkParty {
  party_type : option string;
  party_name : rendered;
  role : string;
  email : pyval;
  url : pyval;
}.

Definition party_person : string := "person".

Record DependentPackage : Type := mkDependentPackage {
  purl : string;
  extracted_requirement : rendered;
  scope : string;
  is_runtime : bool;
  is_optional : pyval;
  is_resolved : bool;
}.

(** The fields of [PackageData] the four handlers set and [assemble]
    reads.  The licence expression (computed by the licence detection
    subsystem) and the crates.io URL fields are left out; a field a handler
    does not pass keeps its default. *)
Record PackageData : Type := mkPackageData {
  datasource_id : option string;
  type : option string;
  name : pyval;
  version : pyval;
  primary_language : option string;
  description : pyval;
  parties : list Party;
  declared_license : rendered;
  keywords : pyval;
  homepage_url : pyval;
  download_url : pyval;
  vcs_url : rendered;
  copyright : pyval;
  dependencies : list DependentPackage;
  extra_data : list (string * pyval);
}.

(** A record with every field at its default. *)
Definition empty_package_data : PackageData :=
  {| datasource_id := None; type := None; name := PNone; version := PNone;
     primary_language := None; description := PNone; parties := [];
     declared_license := Raw PNone; keywords := PList [];
     homepage_url := PNone; download_url := PNone; vcs_url := Raw PNone;
     copyright := PNone; dependencies := []; extra_data := [] |}.

(** The class attributes a handler declares. *)
Record HandlerClass : Type := mkHandlerClass {
  cls_datasource_id : string;
  path_patterns : list string;
  default_package_type : option string;
  default_primary_language : option string;
}.

Definition AboutFileHandler : HandlerClass :=
  {| cls_datasource_id := "about_file"; path_patterns := ["*.ABOUT"];
     default_package_type := Some "about"; default_primary_language := None |}.

Definition CargoTomlHandler : HandlerClass :=
  {| cls_datasource_id := "cargo_toml"; path_patterns := ["*/Cargo.toml"];
     default_package_type := Some "cargo";
     default_primary_language := Some "Rust" |}.

Definition CargoLockHandler : HandlerClass :=
  {| cls_datasource_id := "cargo_lock"; path_patterns := ["*/Cargo.lock"];
     default_package_type := Some "cargo";
     default_primary_language := Some "Rust" |}.

Definition BowerJsonHandler : HandlerClass :=
  {| cls_datasource_id := "bower_json";
     path_patterns := ["*/bower.json"; "*/.bower.json"];
     default_package_type := Some "bower"; default_primary_language := None |}.

(** What a [parse] yields: a [models.PackageData(...)], or the object that
    calling the handler class itself with keyword arguments builds, shown
    with the arguments it was given. *)
Inductive parsed : Type :=
| Data (pd : PackageData)
| Instance (cls : HandlerClass) (kwargs : PackageData).

(** [isinstance(r, models.PackageData)] *)
Definition is_package_data (r : parsed) : bool :=
  match r with
  | Data _ => true
  | Instance _ _ => false
  end.

(** The attribute values of a yielded record.  On an instance of a handler
    class, [datasource_id] is found on the class when the call did not set
    it. *)
Definition attrs (r : parsed) : PackageData :=
  match r with
  | Data pd => pd
  | Instance cls kwargs =>
      {| datasource_id :=
           match datasource_id kwargs with
           | Some ds_id => Some ds_id
           | None => Some (cls_datasource_id cls)
           end;
         type := type kwargs; name := name kwargs; version := version kwargs;
         primary_language := primary_language kwargs;
         description := description kwargs; parties := parties kwargs;
         declared_license := declared_license kwargs;
         keywords := keywords kwargs; homepage_url := homepage_url kwargs;
         download_url := download_url kwargs; vcs_url := vcs_url kwargs;
         copyright := copyright kwargs; dependencies := dependencies kwargs;
         extra_data := extra_data kwargs |}
  end.

(** The characters [urllib.parse.quote] never encodes, with the slash it
    keeps by default and the colon the packageurl library restores. *)
Definition purl_safe (a : ascii) : bool :=
  let n := nat_of_ascii a in
  ((48 <=? n) && (n <=? 57) || (65 <=? n) && (n <=? 90)
   || (97 <=? n) && (n <=? 122)
   || is_char "-" a || is_char "." a || is_char "_" a || is_char "~" a
   || is_char "/" a || is_char ":" a)%nat.

Definition hex_digit (n : nat) : ascii :=
  match n with
  | 0 => "0" | 1 => "1" | 2 => "2" | 3 => "3" | 4 => "4" | 5 => "5" | 6 => "6"
  | 7 => "7" | 8 => "8" | 9 => "9" | 10 => "A" | 11 => "B" | 12 => "C"
  | 13 => "D" | 14 => "E" | _ => "F"
  end%nat%char.

(** The [quote] of the packageurl library: every other byte of the string
    becomes a percent sign and two upper-case hexadecimal digits. *)
Fixpoint purl_quote (s : string) : string :=
  match s with
  | EmptyString => EmptyString
  | String a s' =>
      if purl_safe a then String a (purl_quote s')
      else
        let n := nat_of_ascii a in
        String "%" (String (hex_digit (n / 16)) (String (hex_digit (n mod 16))
                                                   (purl_quote s')))
  end.

(** [s.lower()], on the ASCII letters. *)
Fixpoint lower (s : string) : string :=
  match s with
  | EmptyString => EmptyString
  | String a s' =>
      let n := nat_of_ascii a in
      String (if ((65 <=? n) && (n <=? 90))%nat then ascii_of_nat (n + 32) else a)
             (lower s')
  end.

(** How the packageurl library writes a type, a name and a version: each
    is stripped when the [PackageURL] is built, the name of its outer
    slashes too, and percent-encoded when the string is written; the type
    is put in lower case. *)
Definition purl_type (t : string) : string := lower (purl_quote (strip t)).

Definition purl_name (n : string) : string :=
  purl_quote (strip_with (is_char "/") (strip n)).

Definition purl_version (v : string) : string := purl_quote (strip v).

(** [PackageURL(type, name=name, version=version).to_string()] of the
    packageurl library, which is not part of this repository: type and name
    are required, each component has to be a string, and a version that is
    empty once stripped is left out. *)
Definition PackageURL_to_string (ty : option string) (nm ver : pyval) : result string :=
  match ty, nm with
  | Some t, PStr n =>
      if String.eqb t "" || String.eqb n "" then Raise ValueError
      else match ver with
           | PStr v =>
               Ok ("pkg:" +:+ purl_type t +:+ "/" +:+ purl_name n +:+
                   (if String.eqb (purl_version v) "" then ""
                    else "@" +:+ purl_version v))
           | _ => if truthy ver then Raise ValueError
                  else Ok ("pkg:" +:+ purl_type t +:+ "/" +:+ purl_name n)
           end
  | _, _ => Raise ValueError
  end.

(** ** [cargo.py]: parsing *)

(** The longest prefix of characters selected by [p], and the rest. *)
Fixpoint span_with (p : ascii -> bool) (s : string) : string * string :=
  match s with
  | EmptyString => (EmptyString, EmptyString)
  | String a s' =>
      if p a then let '(pre, rest) := span_with p s' in (String a pre, rest)
      else (EmptyString, s)
  end.

(** The group [(?P<email><([^>]+)>)?] matched at the start of [s]. *)
Definition match_email (s : string) : option string :=
  match s with
  | String a s' =>
      if is_char "<" a then
        let '(body, rest) := span_with (fun c => negb (is_char ">" c)) s' in
        match body, rest with
        | String _ _, String _ _ => Some ("<" +:+ body +:+ ">")
        | _, _ => None
        end
      else None
  | EmptyString => None
  end.

(** [parse_person(person)]: [person_parser] needs a name of at least one
    character other than an opening parenthesis or angle bracket, and
    [person_parser_no_name] is tried when it finds none. *)
Definition parse_person (person : string) : option string * option string :=
  let '(nm, rest) :=
    span_with (fun c => negb (is_char "(" c || is_char "<" c)) person in
  let name := match nm with EmptyString => None | _ => Some (strip nm) end in
  let email :=
    match match_email rest with
    | Some e =>
        Some (strip_with (fun c => is_char "<" c || is_char ">" c || is_char " " c) e)
    | None => None
    end in
  (name, email).

Definition opt_str (o : option string) : pyval :=
  match o with
  | Some s => PStr s
  | None => PNone
  end.

(** [party_mapper(party, party_role)]: the regular expression only takes a
    string. *)
Definition party_mapper (party : pyval) (party_role : string) : result (list Party) :=
  (persons <- py_iter party ;;
   rfold (fun acc person =>
            match person with
            | PStr s =>
                let '(name, email) := parse_person s in
                Ok (acc ++ [mkParty (Some party_person) (Raw (opt_str name))
                                    party_role (opt_str email) PNone])%list
            | _ => Raise TypeError
            end) persons [])%result.

(** One turn of the loop of [dependency_mapper]: [is_optional] is a local
    that keeps the value of the turn before, and has none before the first
    string or table requirement. *)
Definition dependency_mapper_step (scope : string) (is_runtime : bool)
    (st : option pyval * list DependentPackage) (item : string * pyval)
  : result (option pyval * list DependentPackage) :=
  let '(is_optional, acc) := st in
  let '(name, requirement) := item in
  let '(is_optional, requirement) :=
    match requirement with
    | PStr _ => (Some (PBool false), Raw requirement)
    | PDict d =>
        let '(opt, d') := dict_pop d "optional" (PBool false) in
        (Some opt, YamlDump (PDict d'))
    | _ => (is_optional, Raw requirement)
    end in
  (p <- PackageURL_to_string (Some "cargo") (PStr name) PNone ;;
   match is_optional with
   | None => Raise UnboundLocalError
   | Some opt =>
       Ok (is_optional,
           (acc ++ [mkDependentPackage p requirement scope is_runtime opt false])%list)
   end)%result.

(** [dependency_mapper(dependencies, scope)] *)
Definition dependency_mapper (dependencies : pyval) (scope : string)
  : result (list DependentPackage) :=
  let is_runtime :=
    negb (endswith scope "dev-dependencies" || endswith scope "build-dependencies") in
  (items <- py_items dependencies ;;
   st <- rfold (dependency_mapper_step scope is_runtime) items (None, []) ;;
   Ok st.2)%result.

(** [CargoTomlHandler.parse], on the document [toml.load] returns.  The
    dependency tables are looked for among the keys of the [package]
    table. *)
Definition CargoTomlHandler_parse (package_data : pyval) : result (list parsed) :=
  (core_package_data <- py_get package_data "package" (PDict []) ;;
   name <- py_get core_package_data "name" PNone ;;
   version <- py_get core_package_data "version" PNone ;;
   description <- py_get core_package_data "description" PNone ;;
   description <- py_strip (py_or description (PStr "")) ;;
   authors <- py_get core_package_data "authors" PNone ;;
   parties <- party_mapper authors "author" ;;
   declared_license <- py_get core_package_data "license" PNone ;;
   keywords <- py_get core_package_data "keywords" PNone ;;
   categories <- py_get core_package_data "categories" PNone ;;
   _ <- py_extend (py_or keywords (PList [])) (py_or categories (PList [])) ;;
   items <- py_items core_package_data ;;
   dependencies <-
     rfold (fun acc kv =>
              if endswith kv.1 "dependencies"
              then (deps <- dependency_mapper kv.2 kv.1 ;; Ok (acc ++ deps)%list)
              else Ok acc) items [] ;;
   Ok [Data {| datasource_id := Some (cls_datasource_id CargoTomlHandler);
               type := default_package_type CargoTomlHandler;
               name := name; version := version;
               primary_language := default_primary_language CargoTomlHandler;
               description := description; parties := parties;
               declared_license := Raw declared_license;
               keywords := PList []; homepage_url := PNone;
               download_url := PNone; vcs_url := Raw PNone; copyright := PNone;
               dependencies := dependencies; extra_data := [] |}])%result.

(** [CargoLockHandler.parse], on the document [toml.load] returns. *)
Definition CargoLockHandler_parse (cargo_lock : pyval) : result (list parsed) :=
  (package <- py_get cargo_lock "package" (PList []) ;;
   deps <- py_iter package ;;
   dependencies <-
     rfold (fun acc dep =>
              dname <- py_get dep "name" PNone ;;
              dversion <- py_get dep "version" PNone ;;
              p <- PackageURL_to_string (Some "cargo") dname dversion ;;
              Ok (acc ++ [mkDependentPackage p (Raw dversion) "dependencies"
                                             true (PBool false) true])%list)
           deps [] ;;
   Ok [Data {| datasource_id := Some (cls_datasource_id CargoLockHandler);
               type := default_package_type CargoLockHandler;
               name := PNone; version := PNone;
               primary_language := default_primary_language CargoLockHandler;
               description := PNone; parties := [];
               declared_license := Raw PNone;
               keywords := PList []; homepage_url := PNone;
               download_url := PNone; vcs_url := Raw PNone; copyright := PNone;
               dependencies := dependencies; extra_data := [] |}])%result.

(** ** [about.py]: parsing *)

(** [AboutFileHandler.parse], on the document [saneyaml.load] returns. *)
Definition AboutFileHandler_parse (package_data : pyval) : result (list parsed) :=
  (name <- py_get package_data "name" PNone ;;
   version <- py_get package_data "version" PNone ;;
   home_url <- py_get package_data "home_url" PNone ;;
   homepage_url <-
     (if truthy home_url then Ok home_url
      else py_get package_data "homepage_url" PNone) ;;
   download_url <- py_get package_data "download_url" PNone ;;
   declared_license <- py_get package_data "license_expression" PNone ;;
   copyright_statement <- py_get package_data "copyright" PNone ;;
   owner <- py_get package_data "owner" PNone ;;
   let owner := match owner with PStr _ => Raw owner | _ => Repr owner end in
   let parties := [mkParty (Some party_person) owner "owner" PNone PNone] in
   about_resource <- py_get package_data "about_resource" PNone ;;
   Ok [Data {| datasource_id := Some (cls_datasource_id AboutFileHandler);
               type := default_package_type AboutFileHandler;
               name := name; version := version;
               primary_language := None;
               description := PNone; parties := parties;
               declared_license := Raw declared_license;
               keywords := PList []; homepage_url := homepage_url;
               download_url := download_url; vcs_url := Raw PNone;
               copyright := copyright_statement;
               dependencies := [];
               extra_data := [("about_resource", about_resource)] |}])%result.

(** ** [bower.py]: parsing *)

(** The [declared_license] of a bower manifest: a falsy value is kept, a
    string is wrapped in a list, a list keeps its entries that are truthy
    and not blank, anything else is printed. *)
Definition bower_declared_license (declared_license : pyval) : result rendered :=
  if truthy declared_license then
    match declared_license with
    | PStr _ => Ok (ListOf [Raw declared_license])
    | PList l =>
        (kept <- rfold (fun acc l0 =>
                          if truthy l0 then
                            (stripped <- py_strip l0 ;;
                             Ok (if truthy stripped then acc ++ [Raw l0] else acc)%list)
                          else Ok acc) l [] ;;
         Ok (ListOf kept))%result
    | _ => Ok (ListOf [Repr declared_license])
    end
  else Ok (Raw declared_license).

(** One turn of the loop over [authors]: a mapping-shaped author rebinds
    the local [name] that the yielded record is built from. *)
Definition bower_author_step (st : pyval * list Party) (author : pyval)
  : pyval * list Party :=
  let '(name, parties) := st in
  match author with
  | PDict d =>
      let name := dict_get d "name" PNone in
      let email := dict_get d "email" PNone in
      let url := dict_get d "homepage" PNone in
      (name, (parties ++ [mkParty None (Raw name) "author" email url])%list)
  | PStr _ =>
      (name, (parties ++ [mkParty None (Raw author) "author" PNone PNone])%list)
  | _ =>
      (name, (parties ++ [mkParty None (Repr author) "author" PNone PNone])%list)
  end.

(** The entries of a [dependencies] or [devDependencies] table. *)
Definition bower_dependencies (deps : list (string * pyval)) (scope : string)
    (is_runtime : bool) (is_optional : bool) (acc : list DependentPackage)
  : result (list DependentPackage) :=
  rfold (fun acc kv =>
           (p <- PackageURL_to_string (Some "bower") (PStr kv.1) PNone ;;
            Ok (acc ++ [mkDependentPackage p (Raw kv.2) scope is_runtime
                                           (PBool is_optional) false])%list)%result)
        deps acc.

(** [BowerJsonHandler.parse], on the document [json.load] returns.  The
    record is built by calling [cls], the handler class, and is given
    neither a [datasource_id] nor a [type]. *)
Definition BowerJsonHandler_parse (package_data : pyval) : result (list parsed) :=
  (name <- py_get package_data "name" PNone ;;
   description <- py_get package_data "description" PNone ;;
   version <- py_get package_data "version" PNone ;;
   declared_license <- py_get package_data "license" PNone ;;
   declared_license <- bower_declared_license declared_license ;;
   keywords <- py_get package_data "keywords" PNone ;;
   let keywords := py_or keywords (PList []) in
   authors <- py_get package_data "authors" PNone ;;
   authors <- py_iter (py_or authors (PList [])) ;;
   let '(name, parties) := foldl bower_author_step (name, []) authors in
   homepage_url <- py_get package_data "homepage" PNone ;;
   repository <- py_get package_data "repository" PNone ;;
   let repository := py_or repository (PDict []) in
   repo_type <- py_get repository "type" PNone ;;
   repo_url <- py_get repository "url" PNone ;;
   let vcs_url :=
     if truthy repo_type && truthy repo_url then Plus repo_type repo_url
     else Raw PNone in
   deps <- py_get package_data "dependencies" PNone ;;
   deps <- py_items (py_or deps (PDict [])) ;;
   dependencies <- bower_dependencies deps "dependencies" true false [] ;;
   dev_dependencies <- py_get package_data "devDependencies" PNone ;;
   dev_dependencies <- py_items (py_or dev_dependencies (PDict [])) ;;
   dependencies <-
     bower_dependencies dev_dependencies "devDependencies" false true dependencies ;;
   Ok [Instance BowerJsonHandler
         {| datasource_id := None; type := None;
            name := name; version := version;
            primary_language := None;
            description := description; parties := parties;
            declared_license := declared_license;
            keywords := keywords; homepage_url := homepage_url;
            download_url := PNone; vcs_url := vcs_url; copyright := PNone;
            dependencies := dependencies; extra_data := [] |}])%result.

(** ** The resource tree *)

(** A node of the scanned tree.  Resources live in an arena and are named
    by their index ([rid]); [pid] is the parent directory and
    [children_rids] the children in the order [children] lists them. *)
Record Resource : Type := mkResource {
  res_path : string;
  res_name : string;
  is_file : bool;
  pid : option nat;
  children_rids : list nat;
  for_packages : list string;
  package_data : option PackageData;
}.

(** The codebase: the arena of its resources. *)
Abbreviation Codebase := (list Resource).

(** [resource.for_packages.append(package_uid)] *)
Definition append_for_package (package_uid : string) (r : Resource) : Resource :=
  {| res_path := res_path r; res_name := res_name r; is_file := is_file r;
     pid := pid r; children_rids := children_rids r;
     for_packages := (for_packages r ++ [package_uid])%list;
     package_data := package_data r |}.

(** [child.name == s] *)
Definition has_name (cb : Codebase) (rid : nat) (s : string) : bool :=
  match cb !! rid with
  | Some r => String.eqb (res_name r) s
  | None => false
  end.

(** The descendants of [rid], top-down, each child before its own
    children; [fuel] bounds the depth. *)
Fixpoint walk_fuel (fuel : nat) (cb : Codebase) (rid : nat) : list nat :=
  match fuel with
  | O => []
  | S fuel' =>
      match cb !! rid with
      | Some r => flat_map (fun c => c :: walk_fuel fuel' cb c) (children_rids r)
      | None => []
      end
  end.

(** ** Packages and dependencies *)

Record Package : Type := mkPackage {
  pkg_type : option string;
  pkg_name : pyval;
  pkg_version : pyval;
  pkg_purl : string;
  package_uid : string;
  datafile_paths : list string;
}.

Record Dependency : Type := mkDependency {
  dependent : DependentPackage;
  dep_datafile_path : string;
  dep_datasource_id : option string;
  dep_package_uid : option string;
}.

(** What an [assemble] yields; a resource is yielded by reference. *)
Inductive Item : Type :=
| IPackage (p : Package)
| IDependency (d : Dependency)
| IResource (r : option nat).

(** Modelled from the spec: the [purl] property of [models.PackageData],
    whose module is not among the sources.  A record without a name has no
    package URL; otherwise the URL is built from type, name and version. *)
Definition pd_purl (pd : PackageData) : result (option string) :=
  if truthy (name pd) then
    (p <- PackageURL_to_string (type pd) (name pd) (version pd) ;; Ok (Some p))%result
  else Ok None.

(** Modelled from the spec: [models.Dependency.from_dependent_packages],
    whose module is not among the sources.  Every entry becomes a
    [Dependency] carrying the path and [datasource_id] of the declaring
    file and the owning [package_uid], which may be [None]. *)
Definition from_dependent_packages (dependent_packages : list DependentPackage)
    (datafile_path : string) (ds_id : option string) (uid : option string)
  : list Item :=
  map (fun d => IDependency (mkDependency d datafile_path ds_id uid))
      dependent_packages.

(** Modelled from the spec: [models.PackageData.from_dict], whose module is
    not among the sources, on the nullable [package_data] of a resource:
    what was captured at parse time is loaded back, and there is nothing to
    load from [None]. *)
Definition from_dict (mapping : option PackageData) : result PackageData :=
  match mapping with
  | Some pd => Ok pd
  | None => Raise AttributeError
  end.

(** ** Generators over the codebase *)

(** How a generator ends once run to exhaustion: what it yielded, the
    codebase it leaves, and its value or the exception that stopped it. *)
Record Outcome (A : Type) : Type := mkOutcome {
  yielded : list Item;
  final : Codebase;
  ending : result A;
}.
Arguments mkOutcome {A} _ _ _.
Arguments yielded {A} _.
Arguments final {A} _.
Arguments ending {A} _.

Definition Gen (A : Type) : Type := Codebase -> Outcome A.

Definition gret {A} (a : A) : Gen A := fun cb => mkOutcome [] cb (Ok a).

(** Run [m]; if it ends with a value, go on with [k] from the codebase [m]
    left, after what [m] yielded; if it raises, stop there. *)
Definition gbind {A B} (m : Gen A) (k : A -> Gen B) : Gen B :=
  fun cb =>
    match m cb with
    | mkOutcome ys cb1 (Ok a) =>
        match k a cb1 with
        | mkOutcome ys' cb2 e => mkOutcome (ys ++ ys')%list cb2 e
        end
    | mkOutcome ys cb1 (Raise e) => mkOutcome ys cb1 (Raise e)
    end.

Declare Scope gen_scope.
Delimit Scope gen_scope with gen.
Notation "x <- m ;; k" := (gbind m (fun x => k))
  (at level 100, m at next level, right associativity) : gen_scope.
Notation "m ;;; k" := (gbind m (fun _ => k))
  (at level 100, right associativity) : gen_scope.

(** [yield i] *)
Definition yield (i : Item) : Gen unit := fun cb => mkOutcome [i] cb (Ok tt).

(** [yield from items] *)
Definition yield_from (items : list Item) : Gen unit :=
  fun cb => mkOutcome items cb (Ok tt).

Definition lift {A} (r : result A) : Gen A := fun cb => mkOutcome [] cb r.

Definition graise {A} (e : exn) : Gen A := lift (Raise e).

(** [for x in l: body x] *)
Fixpoint gfor {X} (l : list X) (body : X -> Gen unit) : Gen unit :=
  match l with
  | [] => gret tt
  | x :: l' => (body x ;;; gfor l' body)%gen
  end.

(** An attribute of a resource held in a variable that may be [None];
    an index outside the arena names no resource. *)
Definition attr_of {A} (f : Resource -> A) (r : option nat) : Gen A :=
  fun cb =>
    match r with
    | Some rid =>
        match cb !! rid with
        | Some res => mkOutcome [] cb (Ok (f res))
        | None => mkOutcome [] cb (Raise AttributeError)
        end
    | None => mkOutcome [] cb (Raise AttributeError)
    end.

(** [r.parent(codebase)]: [None] for the root. *)
Definition parent (r : option nat) : Gen (option nat) := attr_of pid r.

(** [r.children(codebase)] *)
Definition children (r : option nat) : Gen (list nat) := attr_of children_rids r.

(** [r.walk(codebase)] *)
Definition walk (r : option nat) : Gen (list nat) :=
  fun cb =>
    match r with
    | Some rid => mkOutcome [] cb (Ok (walk_fuel (length cb) cb rid))
    | None => mkOutcome [] cb (Raise AttributeError)
    end.

(** [r.for_packages.append(package_uid)] *)
Definition for_packages_append (r : option nat) (uid : string) : Gen unit :=
  fun cb =>
    match r with
    | Some rid => mkOutcome [] (alter (append_for_package uid) rid cb) (Ok tt)
    | None => mkOutcome [] cb (Raise AttributeError)
    end.

(** [r.save(codebase)] of commoncode's [Resource], which is not among the
    sources: the arena already holds the resource as mutated, so there is
    nothing left to write. *)
Definition save (r : option nat) : Gen unit :=
  match r with
  | Some _ => gret tt
  | None => graise AttributeError
  end.

(** The last child with the given name, as the lookup loops leave it in
    their variable:
    [for child in children: if child.name == s: found = child]. *)
Definition last_named (s : string) (kids : list nat) : Gen (option nat) :=
  fun cb =>
    mkOutcome [] cb
      (Ok (foldl (fun found child => if has_name cb child s then Some child else found)
                 None kids)).

(** [v.attribute] on a record held in a variable that may be [None]. *)
Definition deref {A} (v : option A) : Gen A :=
  match v with
  | Some a => gret a
  | None => graise AttributeError
  end.

(** [child.name == v] *)
Definition name_is (child : nat) (v : pyval) : Gen bool :=
  fun cb =>
    mkOutcome [] cb
      (Ok (match v with PStr s => has_name cb child s | _ => false end)).

(** ** Assembly *)

Section Assembly.

(** The [package_uid] minted in one run for a package URL: [models.py],
    which adds a freshly drawn [uuid] qualifier to the URL, is not among
    the sources.  An [assemble] mints at most once, so the function stands
    for the draw of that one run; another run has a draw of its own, and
    what is stated about two runs takes one function for each. *)
Variable build_package_uid : string -> string.

(** Modelled from the spec: [models.Package.from_package_data], whose
    module is not among the sources.  A package is minted from a record
    that has a package URL; it carries the record's identity, the URL, the
    [package_uid] minted for the URL in this run and the path of the
    declaring file. *)
Definition from_package_data (pd : PackageData) (datafile_path : string)
  : result Package :=
  (p <- pd_purl pd ;;
   match p with
   | Some p =>
       Ok {| pkg_type := type pd; pkg_name := name pd; pkg_version := version pd;
             pkg_purl := p; package_uid := build_package_uid p;
             datafile_paths := [datafile_path] |}
   | None => Raise ValueError
   end)%result.

(** [handle_cargo_toml_and_lock] of [cargo.py].  The record is handed to
    [from_package_data] under the keyword [cargo_data] here and
    [package_data] in [about.py]; the model passes it by position. *)
Definition handle_cargo_toml_and_lock (parent_dir : option nat)
    (cargo_data : option PackageData) (cargo_resource : option nat)
    (cargo_lock_data : option PackageData) (cargo_lock_resource : option nat)
  : Gen unit :=
  (data <- deref cargo_data ;;
   purl <- lift (pd_purl data) ;;
   uid <-
     match purl with
     | Some _ =>
         datafile_path <- attr_of res_path cargo_resource ;;
         package <- lift (from_package_data data datafile_path) ;;
         let uid := package_uid package in
         for_packages_append cargo_resource uid ;;;
         save cargo_resource ;;;
         yield (IPackage package) ;;;
         subtree <- walk parent_dir ;;
         gfor subtree (fun res =>
                         for_packages_append (Some res) uid ;;;
                         save (Some res)) ;;;
         gret (Some uid)
     | None => gret None
     end ;;
   match dependencies data with
   | [] => gret tt
   | dependent_packages =>
       datafile_path <- attr_of res_path cargo_resource ;;
       yield_from (from_dependent_packages dependent_packages datafile_path
                     (datasource_id data) uid)
   end ;;;
   yield (IResource cargo_resource) ;;;
   match cargo_lock_resource with
   | Some _ =>
       lock_data <- deref cargo_lock_data ;;
       match dependencies lock_data with
       | [] => gret tt
       | dependent_packages =>
           datafile_path <- attr_of res_path cargo_lock_resource ;;
           yield_from (from_dependent_packages dependent_packages datafile_path
                         (datasource_id lock_data) uid)
       end ;;;
       yield (IResource cargo_lock_resource)
   | None => gret tt
   end)%gen.

(** The [PackageData] captured on a sibling, when there is one. *)
Definition load_sibling (sibling : option nat) : Gen (option PackageData) :=
  match sibling with
  | Some _ =>
      (mapping <- attr_of package_data sibling ;;
       data <- lift (from_dict mapping) ;;
       gret (Some data))%gen
  | None => gret None
  end.

(** [CargoTomlHandler.assemble] *)
Definition CargoTomlHandler_assemble (pkg_data : PackageData) (resource : nat)
  : Gen unit :=
  (let cargo_resource := Some resource in
   let cargo_data := Some pkg_data in
   parent_dir <- parent cargo_resource ;;
   kids <- children parent_dir ;;
   cargo_lock_resource <- last_named "Cargo.lock" kids ;;
   cargo_lock_data <- load_sibling cargo_lock_resource ;;
   handle_cargo_toml_and_lock parent_dir cargo_data cargo_resource
     cargo_lock_data cargo_lock_resource)%gen.

(** [CargoLockHandler.assemble] *)
Definition CargoLockHandler_assemble (pkg_data : PackageData) (resource : nat)
  : Gen unit :=
  (let cargo_lock_resource := Some resource in
   let cargo_lock_data := Some pkg_data in
   parent_dir <- parent cargo_lock_resource ;;
   kids <- children parent_dir ;;
   cargo_resource <- last_named "Cargo.toml" kids ;;
   cargo_data <- load_sibling cargo_resource ;;
   handle_cargo_toml_and_lock parent_dir cargo_data cargo_resource
     cargo_lock_data cargo_lock_resource)%gen.

(** [AboutFileHandler.assemble].  The child is saved by [child.save()],
    without the codebase the other calls of [save] pass. *)
Definition AboutFileHandler_assemble (pkg_data : PackageData) (resource : nat)
  : Gen unit :=
  (datafile_path <- attr_of res_path (Some resource) ;;
   purl <- lift (pd_purl pkg_data) ;;
   match purl with
   | Some _ =>
       package <- lift (from_package_data pkg_data datafile_path) ;;
       let uid := package_uid package in
       for_packages_append (Some resource) uid ;;;
       save (Some resource) ;;;
       yield (IPackage package) ;;;
       let about_resource := dict_get (extra_data pkg_data) "about_resource" PNone in
       if truthy about_resource then
         parent_dir <- parent (Some resource) ;;
         kids <- children parent_dir ;;
         gfor kids (fun child =>
                      same <- name_is child about_resource ;;
                      if same : bool then
                        for_packages_append (Some child) uid ;;;
                        save (Some child)
                      else gret tt)
       else gret tt
   | None => gret tt
   end ;;;
   yield (IResource (Some resource)))%gen.

(** Modelled from the spec: the default [assemble] of
    [models.DatafileHandler], whose module is not among the sources, with
    the parent-subtree ownership policy [BowerJsonHandler] selects.  A
    package is minted when the record has a package URL and is assigned to
    the parent directory and every resource under it; every dependency is
    emitted, unrooted when no package was minted; the origin resource is
    yielded last. *)
Definition DatafileHandler_assemble (record : parsed) (resource : nat) : Gen unit :=
  (let data := attrs record in
   purl <- lift (pd_purl data) ;;
   uid <-
     match purl with
     | Some _ =>
         datafile_path <- attr_of res_path (Some resource) ;;
         package <- lift (from_package_data data datafile_path) ;;
         let uid := package_uid package in
         yield (IPackage package) ;;;
         parent_dir <- parent (Some resource) ;;
         for_packages_append parent_dir uid ;;;
         subtree <- walk parent_dir ;;
         gfor subtree (fun res => for_packages_append (Some res) uid) ;;;
         gret (Some uid)
     | None => gret None
     end ;;
   datafile_path <- attr_of res_path (Some resource) ;;
   yield_from (from_dependent_packages (dependencies data) datafile_path
                 (datasource_id data) uid) ;;;
   yield (IResource (Some resource)))%gen.

End Assembly.

(** ** The handler registry ([packagedcode/__init__.py]) *)

Module Registry.
Section Registry.

(** [build_gradle.py] is not among the sources: its handler class is left
    open. *)
Variable BuildGradleHandler : HandlerClass.

(** The active handlers, most specific first. *)
Definition PACKAGE_DATAFILE_HANDLERS : list HandlerClass :=
  [AboutFileHandler; CargoTomlHandler; CargoLockHandler; BowerJsonHandler;
   BuildGradleHandler].

(** The two containers a brace comprehension can build. *)
Inductive container : Type :=
| PySet (elems : gset string)
| PyDict (items : list (string * HandlerClass)).

(** [{p.datasource_id for p in PACKAGE_DATAFILE_HANDLERS}]: the
    comprehension has no [key: value] pair, so it builds a set. *)
Definition HANDLER_BY_DATASOURCE_ID : container :=
  PySet (list_to_set (map cls_datasource_id PACKAGE_DATAFILE_HANDLERS)).

(** [c.get(k)]: a dict answers [None] for a missing key, a set has no such
    method. *)
Definition container_get (c : container) (k : option string)
  : result (option HandlerClass) :=
  match c with
  | PyDict items => Ok (k' ← k; assoc k' items)
  | PySet _ => Raise AttributeError
  end.

(** [get_package_handler(package_data)] *)
Definition get_package_handler (pkg_data : PackageData) : result HandlerClass :=
  (ppc <- container_get HANDLER_BY_DATASOURCE_ID (datasource_id pkg_data) ;;
   match ppc with
   | None => Raise UnknownPackageDatasource
   | Some handler => Ok handler
   end)%result.

End Registry.
End Registry.

(** ** Example inputs *)

(** The record a parse captured on its resource, if it yielded one. *)
Definition captured (r : result (list parsed)) : option PackageData :=
  match r with
  | Ok (record :: _) => Some (attrs record)
  | _ => None
  end.

(** A fixed choice of unique ids for the examples. *)
Definition example_uid (p : string) : string := p +:+ "?uuid=fixed-uid-done".

(** The ids of another run, which draws another qualifier. *)
Definition example_other_uid (p : string) : string := p +:+ "?uuid=another-draw".

(** [Cargo.toml]: a [package] table with name and version, and a
    [dependencies] table with [serde = 1.0]. *)
Definition example_cargo_toml : pyval :=
  PDict [("package", PDict [("name", PStr "foo"); ("version", PStr "0.1.0")]);
         ("dependencies", PDict [("serde", PStr "1.0")])].

(** The same manifest with an empty [authors] list. *)
Definition example_cargo_toml_authors : pyval :=
  PDict [("package", PDict [("name", PStr "foo"); ("version", PStr "0.1.0");
                            ("authors", PList [])]);
         ("dependencies", PDict [("serde", PStr "1.0")])].

(** [Cargo.lock] listing [serde 1.0.190]. *)
Definition example_cargo_lock : pyval :=
  PDict [("package", PList [PDict [("name", PStr "serde");
                                   ("version", PStr "1.0.190")]])].

(** A second lockfile, listing [rand 0.8.5]. *)
Definition example_other_lock : pyval :=
  PDict [("package", PList [PDict [("name", PStr "rand");
                                   ("version", PStr "0.8.5")]])].

Definition example_toml_data : PackageData :=
  default empty_package_data
    (captured (CargoTomlHandler_parse example_cargo_toml_authors)).

Definition example_lock_data : PackageData :=
  default empty_package_data (captured (CargoLockHandler_parse example_cargo_lock)).

Definition example_other_lock_data : PackageData :=
  default empty_package_data (captured (CargoLockHandler_parse example_other_lock)).

(** The resource of [proj/Cargo.toml], parsed and not owned yet. *)
Definition example_manifest : Resource :=
  mkResource "proj/Cargo.toml" "Cargo.toml" true (Some 0%nat) [] []
    (Some example_toml_data).

(** [proj/] holding [Cargo.toml] and [Cargo.lock], both parsed. *)
Definition example_codebase : Codebase :=
  [ mkResource "proj" "proj" false None [1; 2]%nat [] None;
    example_manifest;
    mkResource "proj/Cargo.lock" "Cargo.lock" true (Some 0%nat) [] []
      (Some example_lock_data) ].


(** A manifest named [foo] whose [package] table itself holds a
    [dependencies] table, the place the parse looks at. *)
Definition example_full_toml : pyval :=
  PDict [("package", PDict [("name", PStr "foo"); ("version", PStr "0.1.0");
                            ("authors", PList []);
                            ("dependencies", PDict [("serde", PStr "1.0")])])].

Definition example_full_data : PackageData :=
  default empty_package_data (captured (CargoTomlHandler_parse example_full_toml)).

(** [proj/] holding that manifest and [Cargo.lock], both parsed. *)
Definition example_full_codebase : Codebase :=
  [ mkResource "proj" "proj" false None [1; 2]%nat [] None;
    mkResource "proj/Cargo.toml" "Cargo.toml" true (Some 0%nat) [] []
      (Some example_full_data);
    mkResource "proj/Cargo.lock" "Cargo.lock" true (Some 0%nat) [] []
      (Some example_lock_data) ].

(** [proj/] holding only a parsed [Cargo.lock]. *)
Definition example_lock_only : Codebase :=
  [ mkResource "proj" "proj" false None [1]%nat [] None;
    mkResource "proj/Cargo.lock" "Cargo.lock" true (Some 0%nat) [] []
      (Some example_lock_data) ].

(** [proj/] holding [Cargo.toml] and two children named [Cargo.lock]. *)
Definition example_two_locks : Codebase :=
  [ mkResource "proj" "proj" false None [1; 2; 3]%nat [] None;
    mkResource "proj/Cargo.toml" "Cargo.toml" true (Some 0%nat) [] []
      (Some example_toml_data);
    mkResource "proj/Cargo.lock" "Cargo.lock" true (Some 0%nat) [] []
      (Some example_lock_data);
    mkResource "proj/Cargo.lock" "Cargo.lock" true (Some 0%nat) [] []
      (Some example_other_lock_data) ].

(** A manifest whose [package] table has no name. *)
Definition example_unnamed_toml : pyval :=
  PDict [("package", PDict [("authors", PList [])])].

Definition example_unnamed_data : PackageData :=
  default empty_package_data (captured (CargoTomlHandler_parse example_unnamed_toml)).

(** [proj/] holding the unnamed manifest and two children named
    [Cargo.lock]. *)
Definition example_unnamed_two_locks : Codebase :=
  [ mkResource "proj" "proj" false None [1; 2; 3]%nat [] None;
    mkResource "proj/Cargo.toml" "Cargo.toml" true (Some 0%nat) [] []
      (Some example_unnamed_data);
    mkResource "proj/Cargo.lock" "Cargo.lock" true (Some 0%nat) [] []
      (Some example_lock_data);
    mkResource "proj/Cargo.lock" "Cargo.lock" true (Some 0%nat) [] []
      (Some example_other_lock_data) ].

(** A manifest with no name whose [package] table itself holds a
    [dependencies] table, the place the parse looks at. *)
Definition example_nested_toml : pyval :=
  PDict [("package", PDict [("authors", PList []);
                            ("dependencies", PDict [("serde", PStr "1.0")])])].

Definition example_nested_data : PackageData :=
  default empty_package_data (captured (CargoTomlHandler_parse example_nested_toml)).

(** [proj/] holding only that manifest. *)
Definition example_manifest_only : Codebase :=
  [ mkResource "proj" "proj" false None [1]%nat [] None;
    mkResource "proj/Cargo.toml" "Cargo.toml" true (Some 0%nat) [] []
      (Some example_nested_data) ].

(** [bower.json] with no name and [jquery: ^3.0.0] under [dependencies]. *)
Definition example_bower_json : pyval :=
  PDict [("dependencies", PDict [("jquery", PStr "^3.0.0")])].

(** [proj/] holding [bower.json]. *)
Definition example_bower_codebase : Codebase :=
  [ mkResource "proj" "proj" false None [1]%nat [] None;
    mkResource "proj/bower.json" "bower.json" true (Some 0%nat) [] [] None ].

(** [zlib.ABOUT] documenting [zlib.tar.gz]. *)
Definition example_about : pyval :=
  PDict [("name", PStr "zlib"); ("version", PStr "1.2.11");
         ("about_resource", PStr "zlib.tar.gz")].

Definition example_about_data : PackageData :=
  default empty_package_data (captured (AboutFileHandler_parse example_about)).

(** [third_party/] holding [zlib.ABOUT], [zlib.tar.gz] and [notes.txt]. *)
Definition example_about_codebase : Codebase :=
  [ mkResource "third_party" "third_party" false None [1; 2; 3]%nat [] None;
    mkResource "third_party/zlib.ABOUT" "zlib.ABOUT" true (Some 0%nat) [] []
      (Some example_about_data);
    mkResource "third_party/zlib.tar.gz" "zlib.tar.gz" true (Some 0%nat) [] [] None;
    mkResource "third_party/notes.txt" "notes.txt" true (Some 0%nat) [] [] None ].




(** The fields of a [bower.json] named [widget] whose [authors] hold a
    string, a mapping with a name and a mapping without one. *)
Definition example_bower_authors : list (string * pyval) :=
  [("name", PStr "widget");
   ("authors", PList [PStr "Ann Author";
                      PDict [("name", PStr "Bob Builder")];
                      PDict [("email", PStr "carol@example.org")]])].

(** A [dev-dependencies] table with a plain requirement, an optional one
    given as a table, and a quoted key that holds a space. *)
Definition example_dev_table : list (string * pyval) :=
  [("serde", PStr "1.0");
   ("rand", PDict [("version", PStr "0.8"); ("optional", PBool true)]);
   ("my dep", PStr "2")].

(** The one record of a parse, for the examples. *)
Definition the_record (r : result (list parsed)) : parsed :=
  match r with
  | Ok (record :: _) => record
  | _ => Data empty_package_data
  end.

(** The fields of a [bower.json] with one dependency of each kind. *)
Definition example_bower_both : list (string * pyval) :=
  [("name", PStr "widget");
   ("dependencies", PDict [("jquery", PStr "^3.0.0")]);
   ("devDependencies", PDict [("qunit", PStr "~1.0")])].

(** A manifest that is the root of its codebase. *)
Definition example_root_manifest : Codebase :=
  [ mkResource "Cargo.toml" "Cargo.toml" true None [] [] (Some example_toml_data) ].

(** An [.ABOUT] file that declares an [about_resource] and no name. *)
Definition example_about_unnamed_data : PackageData :=
  default empty_package_data
    (captured (AboutFileHandler_parse
                 (PDict [("about_resource", PStr "zlib.tar.gz")]))).

(** ** The name a bower record ends with, in the words of its claim *)

(** A mapping-shaped entry of [authors]. *)
Definition is_mapping (v : pyval) : bool :=
  match v with
  | PDict _ => true
  | _ => false
  end.

(** The last mapping-shaped author, if there is one. *)
Definition last_mapping_author (authors : list pyval) : option pyval :=
  last (List.filter is_mapping authors).

(** The name the claim gives the yielded record: the [name] of the last
    mapping-shaped author ([None] when it has none), and the top-level
    name when no author is a mapping. *)
Definition claimed_name (top : pyval) (authors : list pyval) : pyval :=
  match last_mapping_author authors with
  | Some (PDict a) => dict_get a "name" PNone
  | _ => top
  end.

(** ** Ownership only grows *)



(** The tree after [uid] was appended on each of [targets] in turn. *)
Definition assigned (uid : string) (targets : list nat) (cb : Codebase) : Codebase :=
  foldl (fun cb c => alter (append_for_package uid) c cb) cb targets.

(** ** What a generator may touch and yield *)

(** A generator that leaves the codebase as it found it, however it
    ends. *)
Definition leaves_tree {A} (g : Gen A) : Prop :=
  forall cb, final (g cb) = cb.

(** A generator that yields only items satisfying [P] and, when it ends
    with a value, ends with one satisfying [Q]. *)
Definition yields_and_returns {A} (P : Item -> Prop) (Q : A -> Prop) (g : Gen A) : Prop :=
  forall cb,
    Forall P (yielded (g cb)) /\ (forall a, ending (g cb) = Ok a -> Q a).

(** An outcome reached after [ys] was yielded first. *)
Definition prepend {A} (ys : list Item) (o : Outcome A) : Outcome A :=
  mkOutcome (ys ++ yielded o)%list (final o) (ending o).

(** An item that belongs to the package id [u]: a dependency tagged with
    it, the package that carries it, or a resource. *)
Definition tagged_with (u : option string) (item : Item) : Prop :=
  match item with
  | IDependency dep => dep_package_uid dep = u
  | IPackage pkg => u = Some (package_uid pkg)
  | IResource _ => True
  end.

(** The [package_uid] of every package among the items yielded. *)
Definition yielded_package_uids (items : list Item) : list string :=
  omap (fun item => match item with
                    | IPackage pkg => Some (package_uid pkg)
                    | _ => None
                    end) items.

(** The [package_uid] every dependency among the items yielded is tagged
    with. *)
Definition yielded_dependency_uids (items : list Item) : list (option string) :=
  omap (fun item => match item with
                    | IDependency dep => Some (dep_package_uid dep)
                    | _ => None
                    end) items.

(** * Properties *)

(** ** Registry lookup *)

(** C5: [get_package_handler] neither returns the handler registered under
    a [datasource_id] nor raises [UnknownPackageDatasource]: the registry
    is a set, and the lookup raises [AttributeError] for every record. *)
Theorem get_package_handler_always_attribute_error :
  forall (BuildGradleHandler : HandlerClass) (pkg_data : PackageData),
    Registry.get_package_handler BuildGradleHandler pkg_data = Raise AttributeError.
Proof.
  intros gradle pkg_data.
  unfold Registry.get_package_handler, Registry.HANDLER_BY_DATASOURCE_ID.
  reflexivity.
Qed.

(** ** Parsing *)

(** The docstring examples of [parse_person]. *)
Example parse_person_doctests :
  parse_person "Barney Rubble <b@rubble.com>" = (Some "Barney Rubble", Some "b@rubble.com")
  /\ parse_person "Barney Rubble" = (Some "Barney Rubble", None)
  /\ parse_person "<b@rubble.com>" = (None, Some "b@rubble.com").
Proof. repeat split; vm_compute; reflexivity. Qed.

(** Unfolds a chain of [rbind]s in a hypothesis that says the chain ended
    with a value. *)
Ltac invert_result H :=
  repeat match type of H with
         | rbind ?m _ = Ok _ =>
             let E := fresh "E" in
             destruct m eqn:E; simpl in H; [ | discriminate H ]
         | (let '(_, _) := ?p in _) = Ok _ =>
             let E := fresh "E" in destruct p eqn:E
         end.

(** X1: whatever [CargoTomlHandler.parse], [CargoLockHandler.parse] and
    [AboutFileHandler.parse] yield is one [models.PackageData] carrying the
    [datasource_id] of its handler. *)
Lemma package_data_handlers_tag_their_records (doc : pyval) (records : list parsed) :
  (CargoTomlHandler_parse doc = Ok records ->
   exists pd, records = [Data pd]
              /\ datasource_id pd = Some (cls_datasource_id CargoTomlHandler))
  /\ (CargoLockHandler_parse doc = Ok records ->
      exists pd, records = [Data pd]
                 /\ datasource_id pd = Some (cls_datasource_id CargoLockHandler))
  /\ (AboutFileHandler_parse doc = Ok records ->
      exists pd, records = [Data pd]
                 /\ datasource_id pd = Some (cls_datasource_id AboutFileHandler)).
Proof.
  repeat split; intros H.
  - unfold CargoTomlHandler_parse in H. invert_result H.
    inversion H; subst. eexists; split; reflexivity.
  - unfold CargoLockHandler_parse in H. invert_result H.
    inversion H; subst. eexists; split; reflexivity.
  - unfold AboutFileHandler_parse in H. invert_result H.
    inversion H; subst. eexists; split; reflexivity.
Qed.

(** Whatever [BowerJsonHandler.parse] yields is an instance of the handler
    class, built without a [datasource_id]. *)
Lemma bower_parse_yields_handler_instance (doc : pyval) (records : list parsed) :
  BowerJsonHandler_parse doc = Ok records ->
  exists kwargs, records = [Instance BowerJsonHandler kwargs]
                 /\ datasource_id kwargs = None.
Proof.
  intros H. unfold BowerJsonHandler_parse in H. invert_result H.
  inversion H; subst. eexists; split; reflexivity.
Qed.

(** C6: the record [BowerJsonHandler.parse] yields for a manifest is not a
    [PackageData]: it is an instance of the handler class, and the call
    that builds it passes neither [datasource_id] nor [type], unlike the
    records of the other three handlers. *)
Theorem bower_record_is_not_package_data :
  exists kwargs,
    BowerJsonHandler_parse example_bower_json = Ok [Instance BowerJsonHandler kwargs]
    /\ is_package_data (Instance BowerJsonHandler kwargs) = false
    /\ datasource_id kwargs = None
    /\ type kwargs = None.
Proof.
  eexists. split; [ vm_compute; reflexivity | ].
  repeat split.
Qed.

(** The local [name] after the loop over [authors]. *)
Lemma author_loop_name (authors : list pyval) (top : pyval) (parties : list Party) :
  (foldl bower_author_step (top, parties) authors).1 = claimed_name top authors.
Proof.
  induction authors as [ | author authors IH ] using rev_ind.
  - reflexivity.
  - rewrite foldl_app. simpl.
    destruct (foldl bower_author_step (top, parties) authors) as [n ps] eqn:E.
    simpl in IH. subst n.
    unfold claimed_name, last_mapping_author.
    rewrite List.filter_app. simpl.
    destruct author; simpl; rewrite ?app_nil_r; try reflexivity.
    rewrite last_snoc. reflexivity.
Qed.

(** C10: the record [BowerJsonHandler.parse] yields is named after the last
    mapping-shaped entry of [authors] ([None] when that entry has no
    [name]), and keeps the top-level name only when [authors] is absent,
    empty or has no mapping-shaped entry. *)
Theorem bower_name_is_last_mapping_author
    (d : list (string * pyval)) (authors : list pyval) (record : parsed) :
  py_iter (py_or (dict_get d "authors" PNone) (PList [])) = Ok authors ->
  BowerJsonHandler_parse (PDict d) = Ok [record] ->
  name (attrs record) = claimed_name (dict_get d "name" PNone) authors
  /\ (forall a, last_mapping_author authors = Some (PDict a) ->
                name (attrs record) = dict_get a "name" PNone)
  /\ (last_mapping_author authors = None ->
      name (attrs record) = dict_get d "name" PNone).
Proof.
  intros Hauthors H.
  assert (Hname : name (attrs record) = claimed_name (dict_get d "name" PNone) authors).
  { unfold BowerJsonHandler_parse in H. simpl in H.
    rewrite Hauthors in H. simpl in H.
    pose proof (author_loop_name authors (dict_get d "name" PNone) []) as Hloop.
    destruct (foldl bower_author_step (dict_get d "name" PNone, []) authors)
      as [n ps] eqn:Efold.
    simpl in Hloop. invert_result H. inversion H; subst. reflexivity. }
  split; [ exact Hname | ].
  split.
  - intros a Ha. rewrite Hname. unfold claimed_name. rewrite Ha. reflexivity.
  - intros Hnone. rewrite Hname. unfold claimed_name. rewrite Hnone. reflexivity.
Qed.

(** ** Assembly on the example trees *)

(** C8: for the [bower.json] with no name and [jquery: ^3.0.0] under
    [dependencies], no package is minted: the assembly of the parsed
    record yields one dependency with no [package_uid], purl
    [pkg:bower/jquery], scope [dependencies], runtime and not optional,
    then the origin resource, and leaves the tree as it was. *)
Theorem bower_unnamed_manifest_unrooted_dependency
    (build_package_uid : string -> string) (cb : Codebase) (rid : nat)
    (r : Resource) (record : parsed) :
  cb !! rid = Some r ->
  BowerJsonHandler_parse example_bower_json = Ok [record] ->
  DatafileHandler_assemble build_package_uid record rid cb =
    mkOutcome
      [IDependency
         (mkDependency
            (mkDependentPackage "pkg:bower/jquery" (Raw (PStr "^3.0.0"))
               "dependencies" true (PBool false) false)
            (res_path r) (Some "bower_json") None);
       IResource (Some rid)]
      cb (Ok tt).
Proof.
  intros Hr Hparse. vm_compute in Hparse. inversion Hparse; subst; clear Hparse.
  unfold DatafileHandler_assemble, gbind, lift, attr_of, yield_from, yield, gret.
  simpl. rewrite Hr. simpl. reflexivity.
Qed.

(** C1: on the example directory the two-dependency outcome is not
    reached.  [CargoTomlHandler.parse] raises on the manifest as given (it
    iterates over the missing [authors]); with an empty [authors] list
    added it finds no dependency, because it looks for the dependency
    tables inside the [package] table; assembly then yields the package,
    the manifest, the one resolved dependency of the lockfile and the
    lockfile. *)
Theorem cargo_example_yields_one_dependency :
  CargoTomlHandler_parse example_cargo_toml = Raise TypeError
  /\ dependencies <$> captured (CargoTomlHandler_parse example_cargo_toml_authors)
     = Some []
  /\ yielded (CargoTomlHandler_assemble example_uid example_toml_data 1
                example_codebase)
     = [IPackage
          (mkPackage (Some "cargo") (PStr "foo") (PStr "0.1.0")
             "pkg:cargo/foo@0.1.0" (example_uid "pkg:cargo/foo@0.1.0")
             ["proj/Cargo.toml"]);
        IResource (Some 1%nat);
        IDependency
          (mkDependency
             (mkDependentPackage "pkg:cargo/serde@1.0.190" (Raw (PStr "1.0.190"))
                "dependencies" true (PBool false) true)
             "proj/Cargo.lock" (Some "cargo_lock")
             (Some (example_uid "pkg:cargo/foo@0.1.0")));
        IResource (Some 2%nat)].
Proof. repeat split; vm_compute; reflexivity. Qed.

(** X2: a lockfile whose directory has no child named [Cargo.toml] cannot
    be assembled: the manifest data is [None] when its [purl] is read, and
    the run ends with [AttributeError] before anything is yielded. *)
Lemma cargo_lock_alone_raises (build_package_uid : string -> string)
    (pkg_data : PackageData) (resource d : nat) (r dir : Resource) (cb : Codebase) :
  cb !! resource = Some r ->
  pid r = Some d ->
  cb !! d = Some dir ->
  List.filter (fun c => has_name cb c "Cargo.toml") (children_rids dir) = [] ->
  CargoLockHandler_assemble build_package_uid pkg_data resource cb =
    mkOutcome [] cb (Raise AttributeError).
Proof.
  intros Hr Hpid Hdir Hnone.
  unfold CargoLockHandler_assemble, gbind, parent, children, attr_of, last_named.
  simpl. rewrite Hr. simpl. rewrite Hpid, Hdir. simpl.
  assert (Hfound : foldl (fun found child =>
                            if has_name cb child "Cargo.toml" then Some child else found)
                         None (children_rids dir) = None).
  { revert Hnone. generalize (children_rids dir). intros kids.
    induction kids as [ | c kids IH ]; simpl; [ reflexivity | ].
    destruct (has_name cb c "Cargo.toml"); [ discriminate | exact IH ]. }
  rewrite Hfound. reflexivity.
Qed.

(** C4: assembling a [Cargo.lock] that stands alone in its directory ends
    with [AttributeError] before anything is yielded: neither its
    dependency nor the resource comes out. *)
Theorem cargo_lock_without_manifest_raises :
  CargoLockHandler_assemble example_uid example_lock_data 1 example_lock_only =
    mkOutcome [] example_lock_only (Raise AttributeError)
  /\ dependencies example_lock_data <> [].
Proof. split; [ vm_compute; reflexivity | vm_compute; discriminate ]. Qed.

(** ** Companion lookup *)

(** A generator step that yields nothing and leaves the codebase alone
    hands its value to the rest. *)
Lemma gbind_pure {A B} (m : Gen A) (k : A -> Gen B) (a : A) (cb : Codebase) :
  m cb = mkOutcome [] cb (Ok a) ->
  gbind m k cb = k a cb.
Proof.
  intros Hm. unfold gbind. rewrite Hm.
  destruct (k a cb). reflexivity.
Qed.

(** The tree a run leaves is the one its second part leaves, started on
    what the first part left. *)
Lemma final_gbind {A B} (m : Gen A) (k : A -> Gen B) (a : A) (cb : Codebase) :
  ending (m cb) = Ok a ->
  final (gbind m k cb) = final (k a (final (m cb))).
Proof.
  intros H. unfold gbind.
  destruct (m cb) as [ys cb1 e]. simpl in H. subst e. simpl.
  destruct (k a cb1). reflexivity.
Qed.

(** The same, when the whole outcome of the first part is known. *)
Lemma final_gbind_run {A B} (m : Gen A) (k : A -> Gen B) (a : A)
    (ys : list Item) (cb cb1 : Codebase) :
  m cb = mkOutcome ys cb1 (Ok a) ->
  final (gbind m k cb) = final (k a cb1).
Proof.
  intros H. unfold gbind. rewrite H. destruct (k a cb1). reflexivity.
Qed.

(** Yielding does not touch the tree. *)
Lemma final_then_yield {A} (m : Gen A) (i : Item) (cb : Codebase) :
  final ((m ;;; yield i)%gen cb) = final (m cb).
Proof.
  unfold gbind. destruct (m cb) as [ys cb1 [a | e]]; reflexivity.
Qed.

(** The variable of a lookup loop ends on the last child of that name. *)
Lemma lookup_loop_last (cb : Codebase) (s : string) (kids : list nat)
    (found : option nat) :
  foldl (fun found child => if has_name cb child s then Some child else found)
        found kids
  = match last (List.filter (fun c => has_name cb c s) kids) with
    | Some c => Some c
    | None => found
    end.
Proof.
  induction kids as [ | c kids IH ] using rev_ind.
  - reflexivity.
  - rewrite foldl_app, List.filter_app. simpl.
    destruct (has_name cb c s); simpl.
    + rewrite last_snoc. reflexivity.
    + rewrite app_nil_r. exact IH.
Qed.

Lemma last_named_run (cb : Codebase) (s : string) (kids : list nat) :
  last_named s kids cb
  = mkOutcome [] cb (Ok (last (List.filter (fun c => has_name cb c s) kids))).
Proof.
  unfold last_named. rewrite lookup_loop_last.
  destruct (last _); reflexivity.
Qed.

(** [CargoTomlHandler.assemble] hands the last child named [Cargo.lock] to
    [handle_cargo_toml_and_lock]. *)
Lemma cargo_toml_assemble_companion (build_package_uid : string -> string)
    (pkg_data : PackageData) (resource d : nat) (r dir : Resource) (cb : Codebase) :
  cb !! resource = Some r ->
  pid r = Some d ->
  cb !! d = Some dir ->
  CargoTomlHandler_assemble build_package_uid pkg_data resource cb =
    (let companion :=
       last (List.filter (fun c => has_name cb c "Cargo.lock") (children_rids dir)) in
     (cargo_lock_data <- load_sibling companion ;;
      handle_cargo_toml_and_lock build_package_uid (Some d) (Some pkg_data)
        (Some resource) cargo_lock_data companion)%gen cb).
Proof.
  intros Hr Hpid Hdir. unfold CargoTomlHandler_assemble.
  rewrite (gbind_pure _ _ (Some d)).
  2: { unfold parent, attr_of. rewrite Hr, Hpid. reflexivity. }
  rewrite (gbind_pure _ _ (children_rids dir)).
  2: { unfold children, attr_of. rewrite Hdir. reflexivity. }
  rewrite (gbind_pure _ _ _ _ (last_named_run cb "Cargo.lock" (children_rids dir))).
  reflexivity.
Qed.

(** [CargoLockHandler.assemble] hands the last child named [Cargo.toml] to
    [handle_cargo_toml_and_lock]. *)
Lemma cargo_lock_assemble_companion (build_package_uid : string -> string)
    (pkg_data : PackageData) (resource d : nat) (r dir : Resource) (cb : Codebase) :
  cb !! resource = Some r ->
  pid r = Some d ->
  cb !! d = Some dir ->
  CargoLockHandler_assemble build_package_uid pkg_data resource cb =
    (let companion :=
       last (List.filter (fun c => has_name cb c "Cargo.toml") (children_rids dir)) in
     (cargo_data <- load_sibling companion ;;
      handle_cargo_toml_and_lock build_package_uid (Some d) cargo_data
        companion (Some pkg_data) (Some resource))%gen cb).
Proof.
  intros Hr Hpid Hdir. unfold CargoLockHandler_assemble.
  rewrite (gbind_pure _ _ (Some d)).
  2: { unfold parent, attr_of. rewrite Hr, Hpid. reflexivity. }
  rewrite (gbind_pure _ _ (children_rids dir)).
  2: { unfold children, attr_of. rewrite Hdir. reflexivity. }
  rewrite (gbind_pure _ _ _ _ (last_named_run cb "Cargo.toml" (children_rids dir))).
  reflexivity.
Qed.

(** A parsed sibling gives back the record captured on it. *)
Lemma load_sibling_parsed (sibling : nat) (r : Resource) (data : PackageData)
    (cb : Codebase) :
  cb !! sibling = Some r ->
  package_data r = Some data ->
  load_sibling (Some sibling) cb = mkOutcome [] cb (Ok (Some data)).
Proof.
  intros Hr Hdata. unfold load_sibling, gbind, attr_of, lift, from_dict, gret.
  rewrite Hr. simpl. rewrite Hdata. reflexivity.
Qed.

(** C7 (as amended): when several children of the directory carry the
    companion's name, neither handler assembles its manifest alone: the
    last such child, in the order [children] lists them, is taken as the
    companion and its captured data is handed to
    [handle_cargo_toml_and_lock]. *)
Theorem companion_is_last_child_of_that_name
    (build_package_uid : string -> string) (pkg_data : PackageData)
    (resource d : nat) (r dir : Resource) (cb : Codebase) :
  cb !! resource = Some r ->
  pid r = Some d ->
  cb !! d = Some dir ->
  CargoTomlHandler_assemble build_package_uid pkg_data resource cb =
    (let companion :=
       last (List.filter (fun c => has_name cb c "Cargo.lock") (children_rids dir)) in
     (cargo_lock_data <- load_sibling companion ;;
      handle_cargo_toml_and_lock build_package_uid (Some d) (Some pkg_data)
        (Some resource) cargo_lock_data companion)%gen cb)
  /\ CargoLockHandler_assemble build_package_uid pkg_data resource cb =
    (let companion :=
       last (List.filter (fun c => has_name cb c "Cargo.toml") (children_rids dir)) in
     (cargo_data <- load_sibling companion ;;
      handle_cargo_toml_and_lock build_package_uid (Some d) cargo_data
        companion (Some pkg_data) (Some resource))%gen cb).
Proof.
  intros Hr Hpid Hdir. split.
  - exact (cargo_toml_assemble_companion _ _ _ _ _ _ _ Hr Hpid Hdir).
  - exact (cargo_lock_assemble_companion _ _ _ _ _ _ _ Hr Hpid Hdir).
Qed.

(** C7 (as stated) fails: with two children named [Cargo.lock], the
    manifest is not assembled alone; the dependency of the second lockfile
    and that lockfile are yielded, whether the manifest has a name or
    not. *)
Lemma two_lockfiles_are_not_ignored :
  yielded (CargoTomlHandler_assemble example_uid example_unnamed_data 1
             example_unnamed_two_locks)
  = [IResource (Some 1%nat);
     IDependency
       (mkDependency
          (mkDependentPackage "pkg:cargo/rand@0.8.5" (Raw (PStr "0.8.5"))
             "dependencies" true (PBool false) true)
          "proj/Cargo.lock" (Some "cargo_lock") None);
     IResource (Some 3%nat)]
  /\ yielded (handle_cargo_toml_and_lock example_uid (Some 0%nat)
                (Some example_unnamed_data) (Some 1%nat) None None
                example_unnamed_two_locks)
     = [IResource (Some 1%nat)]
  /\ yielded (CargoTomlHandler_assemble example_uid example_toml_data 1
                example_two_locks)
     = [IPackage
          (mkPackage (Some "cargo") (PStr "foo") (PStr "0.1.0")
             "pkg:cargo/foo@0.1.0" (example_uid "pkg:cargo/foo@0.1.0")
             ["proj/Cargo.toml"]);
        IResource (Some 1%nat);
        IDependency
          (mkDependency
             (mkDependentPackage "pkg:cargo/rand@0.8.5" (Raw (PStr "0.8.5"))
                "dependencies" true (PBool false) true)
             "proj/Cargo.lock" (Some "cargo_lock")
             (Some (example_uid "pkg:cargo/foo@0.1.0")));
        IResource (Some 3%nat)].
Proof. repeat split; vm_compute; reflexivity. Qed.

(** ** Ownership only grows *)































(** ** The frame of [AboutFileHandler.assemble] *)

Lemma has_name_append (uid : string) (target : nat) (cb : Codebase)
    (c : nat) (s : string) :
  has_name (alter (append_for_package uid) target cb) c s = has_name cb c s.
Proof.
  unfold has_name. rewrite list_lookup_alter.
  destruct (decide (target = c)) as [-> | Hne]; [ | reflexivity ].
  destruct (cb !! c); reflexivity.
Qed.

(** The loop over the children appends on those that carry the name. *)
Lemma about_loop_run (uid s : string) (kids : list nat) (cb : Codebase) :
  gfor kids (fun child =>
               (same <- name_is child (PStr s) ;;
                if same : bool then
                  for_packages_append (Some child) uid ;;;
                  save (Some child)
                else gret tt)%gen) cb
  = mkOutcome [] (assigned uid (List.filter (fun c => has_name cb c s) kids) cb)
      (Ok tt).
Proof.
  revert cb. induction kids as [ | c kids IH ]; intros cb; [ reflexivity | ].
  simpl. unfold gbind at 1. unfold gbind at 1. unfold name_is at 1. simpl.
  destruct (has_name cb c s) eqn:Ec; simpl.
  - rewrite IH. simpl. unfold assigned. simpl. do 2 f_equal.
    apply List.filter_ext. intros c'. apply has_name_append.
  - rewrite IH. reflexivity.
Qed.

Lemma assigned_lookup_other (uid : string) (targets : list nat) (cb : Codebase)
    (rid : nat) :
  rid ∉ targets -> assigned uid targets cb !! rid = cb !! rid.
Proof.
  revert cb. induction targets as [ | c targets IH ]; intros cb Hnotin.
  - reflexivity.
  - apply not_elem_of_cons in Hnotin as [Hne Hnotin].
    unfold assigned in *. simpl. rewrite IH by exact Hnotin.
    apply list_lookup_alter_ne. congruence.
Qed.

Lemma assigned_keeps (uid : string) (targets : list nat) (cb : Codebase)
    (rid : nat) (r0 : Resource) :
  cb !! rid = Some r0 ->
  uid ∈ for_packages r0 ->
  exists r', assigned uid targets cb !! rid = Some r' /\ uid ∈ for_packages r'.
Proof.
  revert cb r0. induction targets as [ | c targets IH ]; intros cb r0 Hr Hin.
  - exists r0. split; assumption.
  - unfold assigned in *. simpl.
    destruct (decide (c = rid)) as [-> | Hne].
    + eapply IH.
      * rewrite list_lookup_alter_eq, Hr. reflexivity.
      * simpl. apply elem_of_app. left. exact Hin.
    + eapply IH; [ | exact Hin ].
      rewrite list_lookup_alter_ne by exact Hne. exact Hr.
Qed.

Lemma assigned_lookup_target (uid : string) (targets : list nat) (cb : Codebase)
    (rid : nat) (r0 : Resource) :
  cb !! rid = Some r0 ->
  rid ∈ targets ->
  exists r', assigned uid targets cb !! rid = Some r' /\ uid ∈ for_packages r'.
Proof.
  revert cb r0. induction targets as [ | c targets IH ]; intros cb r0 Hr Hin.
  - apply elem_of_nil in Hin. contradiction.
  - destruct (decide (c = rid)) as [-> | Hne].
    + unfold assigned. simpl.
      eapply (assigned_keeps uid targets).
      * rewrite list_lookup_alter_eq, Hr. reflexivity.
      * simpl. apply elem_of_app. right. apply list_elem_of_singleton. reflexivity.
    + apply elem_of_cons in Hin as [-> | Hin]; [ contradiction | ].
      unfold assigned in *. simpl. eapply IH; [ | exact Hin ].
      rewrite list_lookup_alter_ne by exact Hne. exact Hr.
Qed.

(** What [AboutFileHandler.assemble] does once a package is minted and an
    [about_resource] is declared. *)
Lemma about_assemble_run (build_package_uid : string -> string)
    (pkg_data : PackageData) (resource d : nat) (r dir : Resource)
    (cb : Codebase) (p s : string) :
  cb !! resource = Some r ->
  pid r = Some d ->
  cb !! d = Some dir ->
  pd_purl pkg_data = Ok (Some p) ->
  dict_get (extra_data pkg_data) "about_resource" PNone = PStr s ->
  s <> "" ->
  final (AboutFileHandler_assemble build_package_uid pkg_data resource cb)
  = assigned (build_package_uid p)
      (List.filter (fun c => has_name cb c s) (children_rids dir))
      (alter (append_for_package (build_package_uid p)) resource cb).
Proof.
  intros Hr Hpid Hdir Hpurl Habout Hs.
  set (uid := build_package_uid p).
  set (cb1 := alter (append_for_package uid) resource cb).
  assert (Hr1 : cb1 !! resource = Some (append_for_package uid r)).
  { unfold cb1. rewrite list_lookup_alter_eq, Hr. reflexivity. }
  assert (Hkids : children_rids <$> cb1 !! d = Some (children_rids dir)).
  { unfold cb1. rewrite list_lookup_alter.
    destruct (decide (resource = d)) as [-> | Hne].
    - rewrite Hdir. reflexivity.
    - rewrite Hdir. reflexivity. }
  destruct (cb1 !! d) as [dir1 | ] eqn:Hdir1; [ | discriminate Hkids ].
  simpl in Hkids. injection Hkids as Hkids.
  assert (Htruthy : truthy (PStr s) = true).
  { simpl. destruct (String.eqb_spec s ""); [ contradiction | reflexivity ]. }
  unfold AboutFileHandler_assemble.
  rewrite (gbind_pure _ _ (res_path r)).
  2: { unfold attr_of. rewrite Hr. reflexivity. }
  rewrite (gbind_pure _ _ (Some p)).
  2: { unfold lift. rewrite Hpurl. reflexivity. }
  rewrite final_then_yield.
  unfold from_package_data. rewrite Hpurl. cbn [rbind].
  erewrite gbind_pure by reflexivity. cbn [package_uid]. fold uid.
  erewrite final_gbind_run by reflexivity. fold cb1.
  erewrite gbind_pure by reflexivity.
  erewrite final_gbind_run by reflexivity.
  rewrite Habout, Htruthy.
  rewrite (gbind_pure _ _ (Some d)).
  2: { unfold parent, attr_of. rewrite Hr1. simpl. rewrite Hpid. reflexivity. }
  rewrite (gbind_pure _ _ (children_rids dir)).
  2: { unfold children, attr_of. rewrite Hdir1, Hkids. reflexivity. }
  rewrite about_loop_run. simpl.
  f_equal. apply List.filter_ext. intros c. apply has_name_append.
Qed.

(** C9: when [AboutFileHandler.assemble] mints a package from a record
    that declares an [about_resource], the tree it leaves differs from the
    one it found only by the [package_uid] appended to the [.ABOUT]
    resource and to the children of its directory that carry the declared
    name: every other resource is untouched, and each of those holds the
    [package_uid]. *)
Theorem about_assemble_touches_named_siblings_only
    (build_package_uid : string -> string) (pkg_data : PackageData)
    (resource d : nat) (r dir : Resource) (cb : Codebase) (p s : string) :
  cb !! resource = Some r ->
  pid r = Some d ->
  cb !! d = Some dir ->
  pd_purl pkg_data = Ok (Some p) ->
  dict_get (extra_data pkg_data) "about_resource" PNone = PStr s ->
  s <> "" ->
  let uid := build_package_uid p in
  let named := List.filter (fun c => has_name cb c s) (children_rids dir) in
  let cb' := final (AboutFileHandler_assemble build_package_uid pkg_data resource cb) in
  (forall rid, rid <> resource -> rid ∉ named -> cb' !! rid = cb !! rid)
  /\ (forall rid r0, cb !! rid = Some r0 -> rid = resource \/ rid ∈ named ->
        exists r', cb' !! rid = Some r' /\ uid ∈ for_packages r')
  /\ cb' = assigned uid named (alter (append_for_package uid) resource cb).
Proof.
  intros Hr Hpid Hdir Hpurl Habout Hs uid named cb'.
  assert (Hrun : cb' = assigned uid named (alter (append_for_package uid) resource cb)).
  { exact (about_assemble_run build_package_uid pkg_data resource d r dir cb p s
             Hr Hpid Hdir Hpurl Habout Hs). }
  split; [ | split; [ | exact Hrun ] ].
  - intros rid Hne Hnotin. rewrite Hrun.
    rewrite assigned_lookup_other by exact Hnotin.
    apply list_lookup_alter_ne. congruence.
  - intros rid r0 Hr0 [-> | Hin]; rewrite Hrun.
    + eapply assigned_keeps.
      * rewrite list_lookup_alter_eq, Hr0. reflexivity.
      * simpl. apply elem_of_app. right. apply list_elem_of_singleton. reflexivity.
    + destruct (decide (resource = rid)) as [-> | Hne].
      * eapply assigned_keeps.
        -- rewrite list_lookup_alter_eq, Hr0. reflexivity.
        -- simpl. apply elem_of_app. right. apply list_elem_of_singleton. reflexivity.
      * eapply assigned_lookup_target; [ | exact Hin ].
        rewrite list_lookup_alter_ne by exact Hne. exact Hr0.
Qed.

(** X4: a [Cargo.toml] without a name, alone in its directory, is
    assembled without error: every dependency of its record is yielded with
    no [package_uid], then the manifest, and the tree is left as it was. *)
Lemma unnamed_manifest_dependencies_unrooted
    (build_package_uid : string -> string) (pkg_data : PackageData)
    (resource d : nat) (r dir : Resource) (cb : Codebase) :
  cb !! resource = Some r ->
  pid r = Some d ->
  cb !! d = Some dir ->
  List.filter (fun c => has_name cb c "Cargo.lock") (children_rids dir) = [] ->
  truthy (name pkg_data) = false ->
  CargoTomlHandler_assemble build_package_uid pkg_data resource cb =
    mkOutcome
      (from_dependent_packages (dependencies pkg_data) (res_path r)
         (datasource_id pkg_data) None ++ [IResource (Some resource)])%list
      cb (Ok tt).
Proof.
  intros Hr Hpid Hdir Hnone Hname.
  rewrite (cargo_toml_assemble_companion _ _ _ _ _ _ _ Hr Hpid Hdir).
  rewrite Hnone. simpl.
  erewrite gbind_pure by reflexivity.
  unfold handle_cargo_toml_and_lock.
  erewrite gbind_pure by reflexivity.
  rewrite (gbind_pure _ _ None).
  2: { unfold lift, pd_purl. rewrite Hname. reflexivity. }
  erewrite gbind_pure by reflexivity.
  destruct (dependencies pkg_data) as [ | dep deps ].
  - reflexivity.
  - unfold gbind, attr_of, yield_from, yield, gret. rewrite Hr. simpl.
    reflexivity.
Qed.

(** ** The theorems at the example inputs *)


(** [companion_is_last_child_of_that_name] on the directory with two
    lockfiles: the companion is the second one. *)
Lemma companion_is_last_child_example :
  CargoTomlHandler_assemble example_uid example_toml_data 1 example_two_locks =
    (cargo_lock_data <- load_sibling (Some 3%nat) ;;
     handle_cargo_toml_and_lock example_uid (Some 0%nat) (Some example_toml_data)
       (Some 1%nat) cargo_lock_data (Some 3%nat))%gen example_two_locks
  /\ CargoLockHandler_assemble example_uid example_toml_data 1 example_two_locks =
    (cargo_data <- load_sibling (Some 1%nat) ;;
     handle_cargo_toml_and_lock example_uid (Some 0%nat) cargo_data
       (Some 1%nat) (Some example_toml_data) (Some 1%nat))%gen example_two_locks.
Proof.
  apply (companion_is_last_child_of_that_name example_uid example_toml_data 1 0
           example_manifest
           (mkResource "proj" "proj" false None [1; 2; 3]%nat [] None)
           example_two_locks);
    reflexivity.
Defined.

(** [bower_unnamed_manifest_unrooted_dependency] on [proj/bower.json]. *)
Lemma bower_unrooted_dependency_example :
  DatafileHandler_assemble example_uid
    (Instance BowerJsonHandler
       {| datasource_id := None; type := None; name := PNone; version := PNone;
          primary_language := None; description := PNone; parties := [];
          declared_license := Raw PNone; keywords := PList [];
          homepage_url := PNone; download_url := PNone; vcs_url := Raw PNone;
          copyright := PNone;
          dependencies :=
            [mkDependentPackage "pkg:bower/jquery" (Raw (PStr "^3.0.0"))
               "dependencies" true (PBool false) false];
          extra_data := [] |})
    1 example_bower_codebase =
    mkOutcome
      [IDependency
         (mkDependency
            (mkDependentPackage "pkg:bower/jquery" (Raw (PStr "^3.0.0"))
               "dependencies" true (PBool false) false)
            "proj/bower.json" (Some "bower_json") None);
       IResource (Some 1%nat)]
      example_bower_codebase (Ok tt).
Proof.
  apply (bower_unnamed_manifest_unrooted_dependency example_uid
           example_bower_codebase 1
           (mkResource "proj/bower.json" "bower.json" true (Some 0%nat) [] [] None));
    reflexivity.
Defined.

(** [about_assemble_touches_named_siblings_only] on [third_party/]: only
    [zlib.ABOUT] and [zlib.tar.gz] are touched. *)
Lemma about_frame_example :
  let cb' :=
    final (AboutFileHandler_assemble example_uid example_about_data 1
             example_about_codebase) in
  (forall rid, rid <> 1%nat -> rid ∉ [2%nat] ->
               cb' !! rid = example_about_codebase !! rid)
  /\ (forall rid r0, example_about_codebase !! rid = Some r0 ->
                     rid = 1%nat \/ rid ∈ [2%nat] ->
        exists r', cb' !! rid = Some r'
                   /\ example_uid "pkg:about/zlib@1.2.11" ∈ for_packages r')
  /\ cb' = assigned (example_uid "pkg:about/zlib@1.2.11") [2%nat]
             (alter (append_for_package (example_uid "pkg:about/zlib@1.2.11"))
                1%nat example_about_codebase).
Proof.
  apply (about_assemble_touches_named_siblings_only example_uid
           example_about_data 1 0
           (mkResource "third_party/zlib.ABOUT" "zlib.ABOUT" true (Some 0%nat) [] []
              (Some example_about_data))
           (mkResource "third_party" "third_party" false None [1; 2; 3]%nat [] None)
           example_about_codebase "pkg:about/zlib@1.2.11" "zlib.tar.gz");
    try reflexivity.
  discriminate.
Defined.

(** [bower_name_is_last_mapping_author] on the manifest named [widget]:
    the record ends with no name, that of its last mapping-shaped author. *)
Lemma bower_name_example :
  let record :=
    Instance BowerJsonHandler
      {| datasource_id := None; type := None; name := PNone; version := PNone;
         primary_language := None; description := PNone;
         parties :=
           [mkParty None (Raw (PStr "Ann Author")) "author" PNone PNone;
            mkParty None (Raw (PStr "Bob Builder")) "author" PNone PNone;
            mkParty None (Raw PNone) "author" (PStr "carol@example.org") PNone];
         declared_license := Raw PNone; keywords := PList [];
         homepage_url := PNone; download_url := PNone; vcs_url := Raw PNone;
         copyright := PNone; dependencies := []; extra_data := [] |} in
  let authors :=
    [PStr "Ann Author"; PDict [("name", PStr "Bob Builder")];
     PDict [("email", PStr "carol@example.org")]] in
  name (attrs record) = claimed_name (PStr "widget") authors
  /\ (forall a, last_mapping_author authors = Some (PDict a) ->
                name (attrs record) = dict_get a "name" PNone)
  /\ (last_mapping_author authors = None -> name (attrs record) = PStr "widget").
Proof.
  eapply (bower_name_is_last_mapping_author example_bower_authors); reflexivity.
Defined.

(** [cargo_lock_alone_raises] on the directory that holds only a lockfile. *)
Lemma cargo_lock_alone_example :
  CargoLockHandler_assemble example_uid example_lock_data 1 example_lock_only =
    mkOutcome [] example_lock_only (Raise AttributeError).
Proof.
  apply (cargo_lock_alone_raises example_uid example_lock_data 1 0
           (mkResource "proj/Cargo.lock" "Cargo.lock" true (Some 0%nat) [] []
              (Some example_lock_data))
           (mkResource "proj" "proj" false None [1]%nat [] None)
           example_lock_only);
    reflexivity.
Defined.

(** [unnamed_manifest_dependencies_unrooted] on the directory that holds
    only an unnamed manifest. *)
Lemma unnamed_manifest_example :
  CargoTomlHandler_assemble example_uid example_nested_data 1 example_manifest_only =
    mkOutcome
      [IDependency
         (mkDependency
            (mkDependentPackage "pkg:cargo/serde" (Raw (PStr "1.0"))
               "dependencies" true (PBool false) false)
            "proj/Cargo.toml" (Some "cargo_toml") None);
       IResource (Some 1%nat)]
      example_manifest_only (Ok tt).
Proof.
  apply (unnamed_manifest_dependencies_unrooted example_uid example_nested_data 1 0
           (mkResource "proj/Cargo.toml" "Cargo.toml" true (Some 0%nat) [] []
              (Some example_nested_data))
           (mkResource "proj" "proj" false None [1]%nat [] None)
           example_manifest_only);
    reflexivity.
Defined.

(** ** What the parsers read, and where they stop *)

(** X5: [CargoTomlHandler.parse] reads nothing but the [package] table of
    the manifest: two manifests with the same [package] table are parsed
    alike, whatever top-level tables they have besides. *)
Theorem cargo_toml_parse_reads_only_package_table (d : list (string * pyval)) :
  CargoTomlHandler_parse (PDict d)
  = CargoTomlHandler_parse (PDict [("package", dict_get d "package" (PDict []))]).
Proof. reflexivity. Qed.

(** X6: a manifest whose [package] table has no [authors] entry (or that
    has no [package] table at all) is not parsed when its description is
    absent, empty or a string: iterating over the missing authors raises
    [TypeError]. *)
Theorem cargo_toml_without_authors_raises
    (d c : list (string * pyval)) :
  dict_get d "package" (PDict []) = PDict c ->
  assoc "authors" c = None ->
  (truthy (dict_get c "description" PNone) = false
   \/ exists s, dict_get c "description" PNone = PStr s) ->
  CargoTomlHandler_parse (PDict d) = Raise TypeError.
Proof.
  intros Hcore Hauthors Hdescription.
  unfold CargoTomlHandler_parse. simpl. rewrite Hcore. simpl.
  assert (Hstrip : exists stripped,
             py_strip (py_or (dict_get c "description" PNone) (PStr "")) = Ok stripped).
  { destruct Hdescription as [Hfalsy | [s Hs]].
    - unfold py_or. rewrite Hfalsy. eexists. reflexivity.
    - rewrite Hs. unfold py_or. destruct (truthy (PStr s)); eexists; reflexivity. }
  destruct Hstrip as [stripped Hstrip]. rewrite Hstrip. simpl.
  unfold dict_get at 1. rewrite Hauthors. reflexivity.
Qed.

(** The loop of [dependency_mapper], from any point on: it adds one entry
    per item, which carries the purl of the item's name, the scope and the
    runtime flag of the call, and is not resolved. *)
Lemma dependency_mapper_loop (sc : string) (rt : bool)
    (items : list (string * pyval)) (st st' : option pyval * list DependentPackage) :
  rfold (dependency_mapper_step sc rt) items st = Ok st' ->
  exists added,
    st'.2 = (st.2 ++ added)%list
    /\ Forall2 (fun kv dep =>
                  PackageURL_to_string (Some "cargo") (PStr kv.1) PNone = Ok (purl dep))
               items added
    /\ Forall (fun dep => scope dep = sc /\ is_runtime dep = rt
                          /\ is_resolved dep = false) added.
Proof.
  revert st. induction items as [ | [nm requirement] items IH ]; intros st H.
  - simpl in H. injection H as <-. exists []. rewrite app_nil_r.
    repeat split; constructor.
  - simpl in H.
    destruct (dependency_mapper_step sc rt st (nm, requirement)) as [st1 | e] eqn:Estep;
      simpl in H; [ | discriminate H ].
    destruct (IH st1 H) as (added & Hacc & Hpurls & Hshape).
    assert (Hone : exists dep,
               st1.2 = (st.2 ++ [dep])%list
               /\ PackageURL_to_string (Some "cargo") (PStr nm) PNone = Ok (purl dep)
               /\ scope dep = sc /\ is_runtime dep = rt /\ is_resolved dep = false).
    { destruct st as [opt acc]. unfold dependency_mapper_step in Estep.
      destruct (PackageURL_to_string (Some "cargo") (PStr nm) PNone) as [p | e] eqn:Ep.
      - destruct requirement; cbn in Estep;
          try (destruct opt; [ | discriminate Estep ]);
          injection Estep as <-; eexists; repeat split.
      - destruct requirement; cbn in Estep; discriminate Estep. }
    destruct Hone as (dep & Hst1 & Hpurl & Hsc & Hrt & Hres).
    exists (dep :: added). split; [ | split ].
    + rewrite Hacc, Hst1, <- app_assoc. reflexivity.
    + constructor; [ exact Hpurl | exact Hpurls ].
    + constructor; [ repeat split; assumption | exact Hshape ].
Qed.

(** X7: when [dependency_mapper] goes through a dependency table, it gives
    one [DependentPackage] per entry, in the order of the table, whose purl
    is the one the packageurl library writes for type [cargo] and the
    entry's name alone; each has the scope of the call, is not resolved,
    and is a runtime dependency unless the scope ends with
    [dev-dependencies] or [build-dependencies]. *)
Theorem dependency_mapper_one_per_entry (sc : string)
    (items : list (string * pyval)) (deps : list DependentPackage) :
  dependency_mapper (PDict items) sc = Ok deps ->
  Forall2 (fun kv dep =>
             PackageURL_to_string (Some "cargo") (PStr kv.1) PNone = Ok (purl dep))
          items deps
  /\ Forall (fun dep =>
               scope dep = sc /\ is_resolved dep = false
               /\ is_runtime dep =
                    negb (endswith sc "dev-dependencies"
                          || endswith sc "build-dependencies")) deps.
Proof.
  intros H. unfold dependency_mapper in H. simpl in H.
  destruct (rfold _ items (None, [])) as [st' | e] eqn:Efold; simpl in H;
    [ | discriminate H ].
  injection H as <-.
  destruct (dependency_mapper_loop _ _ _ _ _ Efold) as (added & Hacc & Hpurls & Hshape).
  simpl in Hacc. rewrite Hacc. split; [ exact Hpurls | ].
  eapply Forall_impl; [ exact Hshape | ].
  intros dep (Hsc & Hrt & Hres). repeat split; assumption.
Qed.

(** X8: a dependency table whose first requirement is neither a string nor
    a table stops [dependency_mapper] with [UnboundLocalError]: the local
    [is_optional] has no value yet. *)
Theorem dependency_mapper_first_requirement_unbound (sc nm : string)
    (requirement : pyval) (items : list (string * pyval)) :
  nm <> "" ->
  (forall s, requirement <> PStr s) ->
  (forall t, requirement <> PDict t) ->
  dependency_mapper (PDict ((nm, requirement) :: items)) sc = Raise UnboundLocalError.
Proof.
  intros Hnm Hstr Hdict. unfold dependency_mapper. simpl.
  unfold dependency_mapper_step at 1. unfold PackageURL_to_string. simpl.
  destruct (String.eqb_spec nm ""); [ contradiction | ]. simpl.
  destruct requirement; try reflexivity.
  - exfalso. eapply Hstr. reflexivity.
  - exfalso. eapply Hdict. reflexivity.
Qed.

(** The loop of [CargoLockHandler.parse], from any point on. *)
Lemma cargo_lock_loop (entries : list pyval) (acc out : list DependentPackage) :
  rfold (fun acc dep =>
           (dname <- py_get dep "name" PNone ;;
            dversion <- py_get dep "version" PNone ;;
            p <- PackageURL_to_string (Some "cargo") dname dversion ;;
            Ok (acc ++ [mkDependentPackage p (Raw dversion) "dependencies"
                                           true (PBool false) true])%list)%result)
        entries acc = Ok out ->
  exists added,
    out = (acc ++ added)%list
    /\ Forall2 (fun entry dep =>
                  exists e,
                    entry = PDict e
                    /\ PackageURL_to_string (Some "cargo") (dict_get e "name" PNone)
                         (dict_get e "version" PNone) = Ok (purl dep)
                    /\ extracted_requirement dep = Raw (dict_get e "version" PNone)
                    /\ scope dep = "dependencies" /\ is_runtime dep = true
                    /\ is_optional dep = PBool false /\ is_resolved dep = true)
               entries added.
Proof.
  revert acc. induction entries as [ | entry entries IH ]; intros acc H.
  - simpl in H. injection H as <-. exists []. rewrite app_nil_r.
    split; [ reflexivity | constructor ].
  - cbn [rfold] in H. destruct entry; cbn [py_get rbind] in H; try discriminate H.
    destruct (PackageURL_to_string (Some "cargo") (dict_get d "name" PNone)
                (dict_get d "version" PNone)) as [p | e] eqn:Epurl;
      cbn [rbind] in H; [ | discriminate H ].
    destruct (IH _ H) as (added & Hout & Hall).
    eexists (_ :: added). split.
    + rewrite Hout, <- app_assoc. reflexivity.
    + constructor; [ | exact Hall ].
      exists d. repeat split. exact Epurl.
Qed.

(** X9: the record [CargoLockHandler.parse] yields has no name and no
    version, and one dependency per entry of the [package] list, in order:
    each is resolved, a runtime dependency, not optional, in scope
    [dependencies], with the entry's version as its requirement and the
    purl of the entry's name and version. *)
Theorem cargo_lock_parse_one_resolved_dependency_per_entry
    (d : list (string * pyval)) (records : list parsed) :
  CargoLockHandler_parse (PDict d) = Ok records ->
  exists pd entries,
    records = [Data pd]
    /\ name pd = PNone /\ version pd = PNone
    /\ py_iter (dict_get d "package" (PList [])) = Ok entries
    /\ Forall2 (fun entry dep =>
                  exists e,
                    entry = PDict e
                    /\ PackageURL_to_string (Some "cargo") (dict_get e "name" PNone)
                         (dict_get e "version" PNone) = Ok (purl dep)
                    /\ extracted_requirement dep = Raw (dict_get e "version" PNone)
                    /\ scope dep = "dependencies" /\ is_runtime dep = true
                    /\ is_optional dep = PBool false /\ is_resolved dep = true)
               entries (dependencies pd).
Proof.
  intros H. unfold CargoLockHandler_parse in H. simpl in H.
  destruct (py_iter (dict_get d "package" (PList []))) as [entries | e] eqn:Eiter;
    simpl in H; [ | discriminate H ].
  match type of H with
  | rbind ?loop _ = _ => destruct loop as [deps | e] eqn:Eloop
  end; simpl in H; [ | discriminate H ].
  injection H as <-.
  destruct (cargo_lock_loop _ _ _ Eloop) as (added & Hout & Hall).
  simpl in Hout. subst deps.
  eexists. exists entries. repeat split. exact Hall.
Qed.

(** [span_with] stops at the first character that is not selected. *)
Lemma span_with_app (p : ascii -> bool) (pre : string) (a : ascii) (rest : string) :
  (forall c, In c (list_ascii_of_string pre) -> p c = true) ->
  p a = false ->
  span_with p (pre +:+ String a rest) = (pre, String a rest).
Proof.
  intros Hpre Ha. induction pre as [ | c pre IH ]; simpl.
  - rewrite Ha. reflexivity.
  - rewrite (Hpre c) by (left; reflexivity).
    rewrite IH; [ reflexivity | ].
    intros c' Hc'. apply Hpre. right. exact Hc'.
Qed.

Lemma span_with_all (p : ascii -> bool) (s : string) :
  (forall c, In c (list_ascii_of_string s) -> p c = true) ->
  span_with p s = (s, EmptyString).
Proof.
  intros Hs. induction s as [ | c s IH ]; simpl; [ reflexivity | ].
  rewrite (Hs c) by (left; reflexivity).
  rewrite IH; [ reflexivity | ].
  intros c' Hc'. apply Hs. right. exact Hc'.
Qed.

(** X10: a person written without any opening parenthesis or angle bracket
    is a name and nothing else: [parse_person] returns it stripped, with no
    email. *)
Theorem parse_person_plain_name (person : string) :
  person <> "" ->
  (forall c, In c (list_ascii_of_string person) ->
             is_char "(" c = false /\ is_char "<" c = false) ->
  parse_person person = (Some (strip person), None).
Proof.
  intros Hne Hplain. unfold parse_person.
  rewrite span_with_all.
  - destruct person; [ contradiction | reflexivity ].
  - intros c Hc. destruct (Hplain c Hc) as [-> ->]. reflexivity.
Qed.

(** X11: for a person written as a name followed by an address in angle
    brackets, [parse_person] returns the name stripped and the address
    without its brackets and outer spaces; what follows the closing bracket
    is ignored. *)
Theorem parse_person_name_and_email (nm addr rest : string) :
  nm <> "" ->
  (forall c, In c (list_ascii_of_string nm) ->
             is_char "(" c = false /\ is_char "<" c = false) ->
  addr <> "" ->
  (forall c, In c (list_ascii_of_string addr) -> is_char ">" c = false) ->
  parse_person (nm +:+ "<" +:+ addr +:+ ">" +:+ rest)
  = (Some (strip nm),
     Some (strip_with (fun c => is_char "<" c || is_char ">" c || is_char " " c)
             ("<" +:+ addr +:+ ">"))).
Proof.
  intros Hnm Hplain Haddr Hclosed. unfold parse_person.
  change (nm +:+ "<" +:+ addr +:+ ">" +:+ rest)
    with (nm +:+ String "<"%char (addr +:+ ">" +:+ rest)).
  rewrite span_with_app.
  - unfold match_email.
    change (is_char "<" "<"%char) with true. cbv iota.
    change (addr +:+ ">" +:+ rest) with (addr +:+ String ">"%char rest).
    rewrite span_with_app.
    + destruct nm; [ contradiction | ].
      destruct addr; [ contradiction | ]. reflexivity.
    + intros c Hc. rewrite (Hclosed c Hc). reflexivity.
    + reflexivity.
  - intros c Hc. destruct (Hplain c Hc) as [-> ->]. reflexivity.
  - reflexivity.
Qed.

(** X12: [AboutFileHandler.parse] yields a record for every document that is
    a mapping, whatever its keys and values, and raises [AttributeError] for
    any other document (an empty file loads as [None]).  The record has the
    name and version of the mapping, no dependency, one party in the role
    of owner, and the declared [about_resource] as its only extra data. *)
Theorem about_parse_succeeds_exactly_on_mappings (doc : pyval) :
  match doc with
  | PDict d =>
      exists pd,
        AboutFileHandler_parse doc = Ok [Data pd]
        /\ name pd = dict_get d "name" PNone
        /\ version pd = dict_get d "version" PNone
        /\ dependencies pd = []
        /\ map role (parties pd) = ["owner"]
        /\ extra_data pd = [("about_resource", dict_get d "about_resource" PNone)]
  | _ => AboutFileHandler_parse doc = Raise AttributeError
  end.
Proof.
  destruct doc; try reflexivity.
  unfold AboutFileHandler_parse. simpl.
  destruct (truthy (dict_get d "home_url" PNone)); simpl;
    eexists; repeat split.
Qed.

(** X13: the owner party of an [.ABOUT] record is named by the [owner]
    value itself when it is a string, and by its [repr] otherwise, also
    when there is no owner at all. *)
Theorem about_owner_party (d : list (string * pyval)) (pd : PackageData) :
  AboutFileHandler_parse (PDict d) = Ok [Data pd] ->
  map party_name (parties pd)
  = [match dict_get d "owner" PNone with
     | PStr s => Raw (PStr s)
     | owner => Repr owner
     end].
Proof.
  intros H. unfold AboutFileHandler_parse in H. simpl in H.
  destruct (truthy (dict_get d "home_url" PNone)); simpl in H;
    injection H as <-; simpl; destruct (dict_get d "owner" PNone); reflexivity.
Qed.

(** The entries [bower_dependencies] adds for one table: one per entry of
    the table, in order. *)
Lemma bower_dependencies_run (deps : list (string * pyval)) (sc : string)
    (rt opt : bool) (acc out : list DependentPackage) :
  bower_dependencies deps sc rt opt acc = Ok out ->
  exists added,
    out = (acc ++ added)%list
    /\ Forall2 (fun kv dep =>
                  PackageURL_to_string (Some "bower") (PStr kv.1) PNone = Ok (purl dep)
                  /\ extracted_requirement dep = Raw kv.2
                  /\ scope dep = sc /\ is_runtime dep = rt
                  /\ is_optional dep = PBool opt /\ is_resolved dep = false)
               deps added.
Proof.
  unfold bower_dependencies. revert acc.
  induction deps as [ | [nm requirement] deps IH ]; intros acc H.
  - simpl in H. injection H as <-. exists []. rewrite app_nil_r.
    split; [ reflexivity | constructor ].
  - cbn [rfold] in H. cbn [fst snd] in H.
    destruct (PackageURL_to_string (Some "bower") (PStr nm) PNone) as [p | e] eqn:Ep;
      cbn [rbind] in H; [ | discriminate H ].
    destruct (IH _ H) as (added & -> & Hadded).
    eexists (_ :: added). split.
    + rewrite <- app_assoc. reflexivity.
    + constructor; [ | exact Hadded ]. repeat split. exact Ep.
Qed.

(** X14: the dependencies of the record [BowerJsonHandler.parse] yields are
    one per entry of [dependencies], as runtime and not optional, followed
    by one per entry of [devDependencies], as optional and not runtime,
    each block in the order of its table; each has the purl the packageurl
    library writes for type [bower] and the entry's name alone, the
    declared requirement, the name of its table as scope, and is not
    resolved. *)
Theorem bower_parse_dependencies
    (d deps devs : list (string * pyval)) (record : parsed) :
  BowerJsonHandler_parse (PDict d) = Ok [record] ->
  py_items (py_or (dict_get d "dependencies" PNone) (PDict [])) = Ok deps ->
  py_items (py_or (dict_get d "devDependencies" PNone) (PDict [])) = Ok devs ->
  exists runtime development,
    dependencies (attrs record) = (runtime ++ development)%list
    /\ Forall2 (fun kv dep =>
                  PackageURL_to_string (Some "bower") (PStr kv.1) PNone = Ok (purl dep)
                  /\ extracted_requirement dep = Raw kv.2
                  /\ scope dep = "dependencies" /\ is_runtime dep = true
                  /\ is_optional dep = PBool false /\ is_resolved dep = false)
               deps runtime
    /\ Forall2 (fun kv dep =>
                  PackageURL_to_string (Some "bower") (PStr kv.1) PNone = Ok (purl dep)
                  /\ extracted_requirement dep = Raw kv.2
                  /\ scope dep = "devDependencies" /\ is_runtime dep = false
                  /\ is_optional dep = PBool true /\ is_resolved dep = false)
               devs development.
Proof.
  intros H Hdeps Hdevs. unfold BowerJsonHandler_parse in H. simpl in H.
  rewrite Hdeps, Hdevs in H.
  invert_result H. inversion H; subst. simpl.
  match goal with
  | E1 : bower_dependencies deps _ _ _ [] = Ok ?l1,
    E2 : bower_dependencies devs _ _ _ ?l1 = Ok ?l2 |- _ =>
      destruct (bower_dependencies_run _ _ _ _ _ _ E1) as (runtime & -> & Hruntime);
      destruct (bower_dependencies_run _ _ _ _ _ _ E2) as (development & -> & Hdev)
  end.
  exists runtime, development. repeat split; assumption.
Qed.

(** The parties after the loop over [authors]. *)
Lemma author_loop_parties (authors : list pyval) (top : pyval) (parties : list Party) :
  exists added,
    (foldl bower_author_step (top, parties) authors).2 = (parties ++ added)%list
    /\ length added = length authors
    /\ Forall (fun party => role party = "author") added.
Proof.
  revert top parties. induction authors as [ | author authors IH ]; intros top parties.
  - exists []. rewrite app_nil_r. repeat split. constructor.
  - cbn [foldl].
    assert (Hstep : exists top' party,
               bower_author_step (top, parties) author = (top', (parties ++ [party])%list)
               /\ role party = "author").
    { destruct author; simpl; eexists; eexists; split; reflexivity. }
    destruct Hstep as (top' & party & -> & Hrole).
    destruct (IH top' (parties ++ [party])%list) as (added & -> & Hlen & Hall).
    exists (party :: added). rewrite <- app_assoc. repeat split.
    + simpl. rewrite Hlen. reflexivity.
    + constructor; assumption.
Qed.

(** X15: the record [BowerJsonHandler.parse] yields has one party per entry
    of [authors], whatever the shape of the entry, each in the role of
    author. *)
Theorem bower_parse_one_party_per_author
    (d : list (string * pyval)) (authors : list pyval) (record : parsed) :
  BowerJsonHandler_parse (PDict d) = Ok [record] ->
  py_iter (py_or (dict_get d "authors" PNone) (PList [])) = Ok authors ->
  length (parties (attrs record)) = length authors
  /\ Forall (fun party => role party = "author") (parties (attrs record)).
Proof.
  intros H Hauthors. unfold BowerJsonHandler_parse in H. simpl in H.
  rewrite Hauthors in H. simpl in H.
  destruct (author_loop_parties authors (dict_get d "name" PNone) [])
    as (added & Hparties & Hlen & Hall).
  destruct (foldl bower_author_step (dict_get d "name" PNone, []) authors)
    as [n ps] eqn:Efold.
  simpl in Hparties. subst ps.
  invert_result H. inversion H; subst. simpl. split; assumption.
Qed.

(** ** Runs that leave the tree alone *)

Lemma leaves_tree_gbind {A B} (m : Gen A) (k : A -> Gen B) :
  leaves_tree m -> (forall a, leaves_tree (k a)) -> leaves_tree (gbind m k).
Proof.
  intros Hm Hk cb. unfold gbind.
  pose proof (Hm cb) as Hm'.
  destruct (m cb) as [ys cb1 [a | e]]; simpl in *; subst cb1.
  - pose proof (Hk a cb) as Hk'.
    destruct (k a cb) as [ys' cb2 e']. exact Hk'.
  - reflexivity.
Qed.

Lemma leaves_tree_gfor {X} (l : list X) (body : X -> Gen unit) :
  (forall x, leaves_tree (body x)) -> leaves_tree (gfor l body).
Proof.
  intros Hbody. induction l as [ | x l IH ]; simpl.
  - intros cb. reflexivity.
  - apply leaves_tree_gbind; [ apply Hbody | intros _; exact IH ].
Qed.

Lemma leaves_tree_attr_of {A} (f : Resource -> A) (r : option nat) :
  leaves_tree (attr_of f r).
Proof.
  intros cb. unfold attr_of.
  destruct r as [rid | ]; [ destruct (cb !! rid) | ]; reflexivity.
Qed.

Lemma leaves_tree_deref {A} (v : option A) : leaves_tree (deref v).
Proof. intros cb. destruct v; reflexivity. Qed.

Lemma leaves_tree_walk (r : option nat) : leaves_tree (walk r).
Proof. intros cb. destruct r; reflexivity. Qed.

Lemma leaves_tree_save (r : option nat) : leaves_tree (save r).
Proof. intros cb. destruct r; reflexivity. Qed.

(** Splits a generator that does not append into its steps. *)
Ltac leaves_tree_steps :=
  repeat first
    [ apply leaves_tree_gbind; [ | intros ]
    | apply leaves_tree_gfor; intros
    | apply leaves_tree_attr_of
    | apply leaves_tree_deref
    | apply leaves_tree_walk
    | apply leaves_tree_save
    | match goal with
      | |- leaves_tree (match ?x with _ => _ end) => destruct x
      | |- leaves_tree (if ?b then _ else _) => destruct b
      end
    | (intros ?; reflexivity) ].

Lemma leaves_tree_load_sibling (sibling : option nat) : leaves_tree (load_sibling sibling).
Proof. unfold load_sibling. leaves_tree_steps. Qed.

(** What [handle_cargo_toml_and_lock] does after the package step: the
    dependencies of the manifest, the manifest, then the lockfile's. *)
Lemma leaves_tree_handle_rest (data : PackageData) (cargo_resource : option nat)
    (cargo_lock_data : option PackageData) (cargo_lock_resource : option nat)
    (uid : option string) :
  leaves_tree
    (match dependencies data with
     | [] => gret tt
     | dependent_packages =>
         datafile_path <- attr_of res_path cargo_resource ;;
         yield_from (from_dependent_packages dependent_packages datafile_path
                       (datasource_id data) uid)
     end ;;;
     yield (IResource cargo_resource) ;;;
     match cargo_lock_resource with
     | Some _ =>
         lock_data <- deref cargo_lock_data ;;
         match dependencies lock_data with
         | [] => gret tt
         | dependent_packages =>
             datafile_path <- attr_of res_path cargo_lock_resource ;;
             yield_from (from_dependent_packages dependent_packages datafile_path
                           (datasource_id lock_data) uid)
         end ;;;
         yield (IResource cargo_lock_resource)
     | None => gret tt
     end)%gen.
Proof. leaves_tree_steps. Qed.

(** X16: a [Cargo.toml] record without a name never changes ownership:
    whatever the tree, the siblings and the way the run ends,
    [CargoTomlHandler.assemble] leaves every [for_packages] as it was. *)
Theorem cargo_toml_assemble_unnamed_leaves_tree
    (build_package_uid : string -> string) (pkg_data : PackageData)
    (resource : nat) (cb : Codebase) :
  truthy (name pkg_data) = false ->
  final (CargoTomlHandler_assemble build_package_uid pkg_data resource cb) = cb.
Proof.
  intros Hname. revert cb.
  change (leaves_tree (CargoTomlHandler_assemble build_package_uid pkg_data resource)).
  unfold CargoTomlHandler_assemble.
  apply leaves_tree_gbind; [ apply leaves_tree_attr_of | intros parent_dir ].
  apply leaves_tree_gbind; [ apply leaves_tree_attr_of | intros kids ].
  apply leaves_tree_gbind; [ intros cb; reflexivity | intros companion ].
  apply leaves_tree_gbind; [ apply leaves_tree_load_sibling | intros lock_data ].
  intros cb. unfold handle_cargo_toml_and_lock.
  rewrite (gbind_pure _ _ pkg_data) by reflexivity.
  rewrite (gbind_pure _ _ None).
  2: { unfold lift, pd_purl. rewrite Hname. reflexivity. }
  rewrite (gbind_pure _ _ None) by reflexivity.
  apply leaves_tree_handle_rest.
Qed.

(** ** Ownership under the cargo handlers *)

Lemma gbind_step {A B} (m : Gen A) (k : A -> Gen B) (a : A)
    (ys : list Item) (cb cb1 : Codebase) :
  m cb = mkOutcome ys cb1 (Ok a) ->
  gbind m k cb = prepend ys (k a cb1).
Proof.
  intros H. unfold gbind, prepend. rewrite H. destruct (k a cb1). reflexivity.
Qed.

(** The walk reads the children only: appending a package id changes no
    walk. *)
Lemma walk_fuel_append (uid : string) (target : nat) (fuel : nat) (cb : Codebase)
    (rid : nat) :
  walk_fuel fuel (alter (append_for_package uid) target cb) rid = walk_fuel fuel cb rid.
Proof.
  revert rid. induction fuel as [ | fuel IH ]; intros rid; [ reflexivity | ].
  simpl. rewrite list_lookup_alter.
  destruct (decide (target = rid)) as [-> | Hne].
  - destruct (cb !! rid) as [r | ]; simpl; [ | reflexivity ].
    apply flat_map_ext. intros c. rewrite IH. reflexivity.
  - destruct (cb !! rid) as [r | ]; [ | reflexivity ].
    apply flat_map_ext. intros c. rewrite IH. reflexivity.
Qed.

(** The loop over a subtree appends on each of its resources in turn. *)
Lemma subtree_loop_run (uid : string) (subtree : list nat) (cb : Codebase) :
  gfor subtree (fun res =>
                  (for_packages_append (Some res) uid ;;;
                   save (Some res))%gen) cb
  = mkOutcome [] (assigned uid subtree cb) (Ok tt).
Proof.
  revert cb. induction subtree as [ | res subtree IH ]; intros cb; [ reflexivity | ].
  cbn [gfor]. erewrite gbind_step.
  2: { erewrite gbind_step by reflexivity. reflexivity. }
  rewrite IH. reflexivity.
Qed.

Lemma res_path_append (uid : string) (target : nat) (cb : Codebase) (rid : nat) :
  res_path <$> alter (append_for_package uid) target cb !! rid = res_path <$> cb !! rid.
Proof.
  rewrite list_lookup_alter.
  destruct (decide (target = rid)) as [-> | Hne]; [ | reflexivity ].
  destruct (cb !! rid); reflexivity.
Qed.

Lemma res_path_assigned (uid : string) (targets : list nat) (cb : Codebase) (rid : nat) :
  res_path <$> assigned uid targets cb !! rid = res_path <$> cb !! rid.
Proof.
  revert cb. induction targets as [ | c targets IH ]; intros cb; [ reflexivity | ].
  unfold assigned in *. simpl. rewrite IH. apply res_path_append.
Qed.

(** The path of a resource read after the tree was assigned. *)
Lemma attr_of_res_path_assigned (uid : string) (targets : list nat) (target rid : nat)
    (r : Resource) (cb : Codebase) :
  cb !! rid = Some r ->
  attr_of res_path (Some rid)
    (assigned uid targets (alter (append_for_package uid) target cb))
  = mkOutcome [] (assigned uid targets (alter (append_for_package uid) target cb))
      (Ok (res_path r)).
Proof.
  intros Hr. unfold attr_of.
  pose proof (res_path_assigned uid targets
                (alter (append_for_package uid) target cb) rid) as Hpath.
  rewrite res_path_append, Hr in Hpath. simpl in Hpath.
  destruct (assigned uid targets _ !! rid) as [r' | ]; [ | discriminate Hpath ].
  simpl in Hpath. injection Hpath as ->. reflexivity.
Qed.

(** The package step of [handle_cargo_toml_and_lock] for a record that has
    a package URL: the package is yielded after the append on the
    manifest, and the walk of the directory follows. *)
Lemma handle_package_step (build_package_uid : string -> string)
    (data : PackageData) (resource d : nat) (r : Resource) (cb : Codebase)
    (p : string) :
  cb !! resource = Some r ->
  pd_purl data = Ok (Some p) ->
  (datafile_path <- attr_of res_path (Some resource) ;;
   package <- lift (from_package_data build_package_uid data datafile_path) ;;
   let uid := package_uid package in
   for_packages_append (Some resource) uid ;;;
   save (Some resource) ;;;
   yield (IPackage package) ;;;
   subtree <- walk (Some d) ;;
   gfor subtree (fun res =>
                   for_packages_append (Some res) uid ;;;
                   save (Some res)) ;;;
   gret (Some uid))%gen cb
  = mkOutcome
      [IPackage (mkPackage (type data) (name data) (version data) p
                   (build_package_uid p) [res_path r])]
      (assigned (build_package_uid p) (walk_fuel (length cb) cb d)
         (alter (append_for_package (build_package_uid p)) resource cb))
      (Ok (Some (build_package_uid p))).
Proof.
  intros Hr Hpurl.
  erewrite gbind_step.
  2: { unfold attr_of. rewrite Hr. reflexivity. }
  erewrite gbind_step.
  2: { unfold lift, from_package_data. rewrite Hpurl. reflexivity. }
  cbv beta zeta. cbn [package_uid].
  erewrite gbind_step by reflexivity.
  erewrite gbind_step by reflexivity.
  erewrite gbind_step by reflexivity.
  erewrite gbind_step by reflexivity.
  erewrite gbind_step by apply subtree_loop_run.
  unfold prepend, gret. simpl.
  rewrite length_alter, walk_fuel_append. reflexivity.
Qed.

(** X17: when [handle_cargo_toml_and_lock] mints a package, the tree it
    leaves, however the rest of the run ends, is the one it found with the
    [package_uid] appended once on the manifest and then once on every
    resource the walk of the parent directory lists; a resource that is
    neither is left as it was. *)
Theorem handle_owns_manifest_and_subtree
    (build_package_uid : string -> string) (data : PackageData)
    (resource d : nat) (r : Resource) (cb : Codebase) (p : string)
    (cargo_lock_data : option PackageData) (cargo_lock_resource : option nat) :
  cb !! resource = Some r ->
  pd_purl data = Ok (Some p) ->
  let cb' :=
    final (handle_cargo_toml_and_lock build_package_uid (Some d) (Some data)
             (Some resource) cargo_lock_data cargo_lock_resource cb) in
  cb' = assigned (build_package_uid p) (walk_fuel (length cb) cb d)
          (alter (append_for_package (build_package_uid p)) resource cb)
  /\ (forall rid, rid <> resource -> rid ∉ walk_fuel (length cb) cb d ->
                  cb' !! rid = cb !! rid).
Proof.
  intros Hr Hpurl cb'.
  assert (Hrun : cb' = assigned (build_package_uid p) (walk_fuel (length cb) cb d)
                         (alter (append_for_package (build_package_uid p)) resource cb)).
  { unfold cb', handle_cargo_toml_and_lock.
    rewrite (gbind_pure _ _ data) by reflexivity.
    rewrite (gbind_pure _ _ (Some p)).
    2: { unfold lift. rewrite Hpurl. reflexivity. }
    erewrite final_gbind_run
      by exact (handle_package_step build_package_uid data resource d r cb p Hr Hpurl).
    apply leaves_tree_handle_rest. }
  split; [ exact Hrun | ].
  intros rid Hne Hnotin. rewrite Hrun.
  rewrite assigned_lookup_other by exact Hnotin.
  apply list_lookup_alter_ne. congruence.
Qed.

Lemma attr_of_res_path (rid : nat) (path : string) (cb : Codebase) :
  res_path <$> cb !! rid = Some path ->
  attr_of res_path (Some rid) cb = mkOutcome [] cb (Ok path).
Proof.
  intros H. unfold attr_of. destruct (cb !! rid) as [r | ]; [ | discriminate H ].
  simpl in H. injection H as ->. reflexivity.
Qed.

(** The dependency steps of [handle_cargo_toml_and_lock] when the manifest
    and the lockfile are both there. *)
Lemma handle_rest_run (data lock_data : PackageData) (resource lock : nat)
    (path lock_path : string) (uid : option string) (cb : Codebase) :
  res_path <$> cb !! resource = Some path ->
  res_path <$> cb !! lock = Some lock_path ->
  (match dependencies data with
   | [] => gret tt
   | dependent_packages =>
       datafile_path <- attr_of res_path (Some resource) ;;
       yield_from (from_dependent_packages dependent_packages datafile_path
                     (datasource_id data) uid)
   end ;;;
   yield (IResource (Some resource)) ;;;
   match Some lock with
   | Some _ =>
       lock_data <- deref (Some lock_data) ;;
       match dependencies lock_data with
       | [] => gret tt
       | dependent_packages =>
           datafile_path <- attr_of res_path (Some lock) ;;
           yield_from (from_dependent_packages dependent_packages datafile_path
                         (datasource_id lock_data) uid)
       end ;;;
       yield (IResource (Some lock))
   | None => gret tt
   end)%gen cb
  = mkOutcome
      (from_dependent_packages (dependencies data) path (datasource_id data) uid
       ++ IResource (Some resource)
          :: from_dependent_packages (dependencies lock_data) lock_path
               (datasource_id lock_data) uid
       ++ [IResource (Some lock)])%list
      cb (Ok tt).
Proof.
  intros Hpath Hlock.
  assert (Hdeps : forall (pd : PackageData) (rid : nat) (pth : string),
             res_path <$> cb !! rid = Some pth ->
             match dependencies pd with
             | [] => gret tt
             | dependent_packages =>
                 (datafile_path <- attr_of res_path (Some rid) ;;
                  yield_from (from_dependent_packages dependent_packages datafile_path
                                (datasource_id pd) uid))%gen
             end cb
             = mkOutcome (from_dependent_packages (dependencies pd) pth
                            (datasource_id pd) uid) cb (Ok tt)).
  { intros pd rid pth Hp. destruct (dependencies pd) as [ | dep deps ];
      [ reflexivity | ].
    erewrite gbind_step by exact (attr_of_res_path _ _ _ Hp). reflexivity. }
  erewrite gbind_step by exact (Hdeps data resource path Hpath).
  erewrite gbind_step by reflexivity.
  erewrite gbind_step by reflexivity.
  erewrite gbind_step by exact (Hdeps lock_data lock lock_path Hlock).
  unfold prepend, yield. simpl. reflexivity.
Qed.

(** X18: with a manifest and a lockfile at hand, [handle_cargo_toml_and_lock]
    ends normally and drops no dependency: it yields the package when the
    manifest has a package URL, then every dependency of the manifest with
    the manifest's path and [datasource_id], the manifest, every dependency
    of the lockfile with the lockfile's path and [datasource_id], and the
    lockfile; all dependencies carry the one [package_uid] of the package,
    or none when no package is minted. *)
Theorem handle_merges_manifest_and_lock
    (build_package_uid : string -> string) (data lock_data : PackageData)
    (resource lock d : nat) (r rl : Resource) (cb : Codebase) (purl : option string) :
  cb !! resource = Some r ->
  cb !! lock = Some rl ->
  pd_purl data = Ok purl ->
  let uid := build_package_uid <$> purl in
  let o := handle_cargo_toml_and_lock build_package_uid (Some d) (Some data)
             (Some resource) (Some lock_data) (Some lock) cb in
  ending o = Ok tt
  /\ yielded o
     = (match purl with
        | Some p => [IPackage (mkPackage (type data) (name data) (version data) p
                                 (build_package_uid p) [res_path r])]
        | None => []
        end
        ++ from_dependent_packages (dependencies data) (res_path r)
             (datasource_id data) uid
        ++ IResource (Some resource)
           :: from_dependent_packages (dependencies lock_data) (res_path rl)
                (datasource_id lock_data) uid
        ++ [IResource (Some lock)])%list.
Proof.
  intros Hr Hrl Hpurl uid o. unfold o, handle_cargo_toml_and_lock.
  rewrite (gbind_pure _ _ data) by reflexivity.
  rewrite (gbind_pure _ _ purl).
  2: { unfold lift. rewrite Hpurl. reflexivity. }
  destruct purl as [p | ].
  - erewrite gbind_step
      by exact (handle_package_step build_package_uid data resource d r cb p Hr Hpurl).
    erewrite handle_rest_run.
    + unfold prepend. simpl. split; reflexivity.
    + rewrite res_path_assigned, res_path_append, Hr. reflexivity.
    + rewrite res_path_assigned, res_path_append, Hrl. reflexivity.
  - erewrite gbind_step by reflexivity.
    erewrite handle_rest_run.
    + unfold prepend. simpl. split; reflexivity.
    + rewrite Hr. reflexivity.
    + rewrite Hrl. reflexivity.
Qed.

(** ** Companion symmetry *)

(** The whole run of [handle_cargo_toml_and_lock] on a manifest and a
    lockfile: what it yields, the tree it leaves and how it ends. *)
Lemma handle_run
    (build_package_uid : string -> string) (data lock_data : PackageData)
    (resource lock d : nat) (r rl : Resource) (cb : Codebase) (purl : option string) :
  cb !! resource = Some r ->
  cb !! lock = Some rl ->
  pd_purl data = Ok purl ->
  handle_cargo_toml_and_lock build_package_uid (Some d) (Some data)
    (Some resource) (Some lock_data) (Some lock) cb
  = mkOutcome
      (match purl with
       | Some p => [IPackage (mkPackage (type data) (name data) (version data) p
                                (build_package_uid p) [res_path r])]
       | None => []
       end
       ++ from_dependent_packages (dependencies data) (res_path r)
            (datasource_id data) (build_package_uid <$> purl)
       ++ IResource (Some resource)
          :: from_dependent_packages (dependencies lock_data) (res_path rl)
               (datasource_id lock_data) (build_package_uid <$> purl)
       ++ [IResource (Some lock)])%list
      (match purl with
       | Some p => assigned (build_package_uid p) (walk_fuel (length cb) cb d)
                     (alter (append_for_package (build_package_uid p)) resource cb)
       | None => cb
       end)
      (Ok tt).
Proof.
  intros Hr Hrl Hpurl. unfold handle_cargo_toml_and_lock.
  rewrite (gbind_pure _ _ data) by reflexivity.
  rewrite (gbind_pure _ _ purl).
  2: { unfold lift. rewrite Hpurl. reflexivity. }
  destruct purl as [p | ].
  - erewrite gbind_step
      by exact (handle_package_step build_package_uid data resource d r cb p Hr Hpurl).
    erewrite handle_rest_run.
    + unfold prepend. simpl. reflexivity.
    + rewrite res_path_assigned, res_path_append, Hr. reflexivity.
    + rewrite res_path_assigned, res_path_append, Hrl. reflexivity.
  - erewrite gbind_step by reflexivity.
    erewrite handle_rest_run.
    + unfold prepend. simpl. reflexivity.
    + rewrite Hr. reflexivity.
    + rewrite Hrl. reflexivity.
Qed.

(** C2 (as amended): in a directory whose only child named [Cargo.toml]
    and only child named [Cargo.lock] are both parsed, and whose manifest
    has a package URL or no name, assembling from the manifest and
    assembling from the lockfile both end normally and yield the same
    records in the same order: the package when there is a package URL,
    every dependency of the manifest with the manifest's path and
    [datasource_id], the manifest, every dependency of the lockfile with
    the lockfile's path and [datasource_id], the lockfile.  Each run tags
    its package and all its dependencies with the one [package_uid] it
    mints for the manifest's package URL and leaves the same resources
    owned by it; the two runs differ in nothing but that id. *)
Theorem companion_symmetry
    (mint_from_toml mint_from_lock : string -> string) (cb : Codebase)
    (toml lock d : nat) (rt rl dir : Resource) (toml_data lock_data : PackageData)
    (purl : option string) :
  cb !! d = Some dir ->
  cb !! toml = Some rt ->
  pid rt = Some d ->
  package_data rt = Some toml_data ->
  cb !! lock = Some rl ->
  pid rl = Some d ->
  package_data rl = Some lock_data ->
  List.filter (fun c => has_name cb c "Cargo.toml") (children_rids dir) = [toml] ->
  List.filter (fun c => has_name cb c "Cargo.lock") (children_rids dir) = [lock] ->
  pd_purl toml_data = Ok purl ->
  let records (mint : string -> string) :=
    (match purl with
     | Some p => [IPackage (mkPackage (type toml_data) (name toml_data)
                              (version toml_data) p (mint p) [res_path rt])]
     | None => []
     end
     ++ from_dependent_packages (dependencies toml_data) (res_path rt)
          (datasource_id toml_data) (mint <$> purl)
     ++ IResource (Some toml)
        :: from_dependent_packages (dependencies lock_data) (res_path rl)
             (datasource_id lock_data) (mint <$> purl)
     ++ [IResource (Some lock)])%list in
  let tree (mint : string -> string) :=
    match purl with
    | Some p => assigned (mint p) (walk_fuel (length cb) cb d)
                  (alter (append_for_package (mint p)) toml cb)
    | None => cb
    end in
  CargoTomlHandler_assemble mint_from_toml toml_data toml cb
  = mkOutcome (records mint_from_toml) (tree mint_from_toml) (Ok tt)
  /\ CargoLockHandler_assemble mint_from_lock lock_data lock cb
     = mkOutcome (records mint_from_lock) (tree mint_from_lock) (Ok tt).
Proof.
  intros Hdir Ht Htpid Htdata Hl Hlpid Hldata Honly_toml Honly_lock Hpurl records tree.
  split.
  - rewrite (cargo_toml_assemble_companion _ _ _ _ _ _ _ Ht Htpid Hdir).
    rewrite Honly_lock. simpl.
    rewrite (gbind_pure _ _ _ _ (load_sibling_parsed _ _ _ _ Hl Hldata)).
    exact (handle_run mint_from_toml toml_data lock_data toml lock d rt rl cb purl
             Ht Hl Hpurl).
  - rewrite (cargo_lock_assemble_companion _ _ _ _ _ _ _ Hl Hlpid Hdir).
    rewrite Honly_toml. simpl.
    rewrite (gbind_pure _ _ _ _ (load_sibling_parsed _ _ _ _ Ht Htdata)).
    exact (handle_run mint_from_lock toml_data lock_data toml lock d rt rl cb purl
             Ht Hl Hpurl).
Qed.

(** C2 (as stated) fails: the [package_uid] is minted anew in each run,
    and the test utilities of the repository say that its [uuid] is
    generated uniquely.  On the example directory, a run from the manifest
    and a run from the lockfile that draw different qualifiers yield one
    package each, under different ids, and tag the same dependency with
    different ids. *)
Lemma companion_runs_mint_their_own_uid :
  let from_toml :=
    CargoTomlHandler_assemble example_uid example_full_data 1 example_full_codebase in
  let from_lock :=
    CargoLockHandler_assemble example_other_uid example_lock_data 2
      example_full_codebase in
  yielded_package_uids (yielded from_toml)
  = ["pkg:cargo/foo@0.1.0?uuid=fixed-uid-done"]
  /\ yielded_package_uids (yielded from_lock)
     = ["pkg:cargo/foo@0.1.0?uuid=another-draw"]
  /\ yielded_dependency_uids (yielded from_toml)
     = [Some "pkg:cargo/foo@0.1.0?uuid=fixed-uid-done";
        Some "pkg:cargo/foo@0.1.0?uuid=fixed-uid-done"]
  /\ yielded_dependency_uids (yielded from_lock)
     = [Some "pkg:cargo/foo@0.1.0?uuid=another-draw";
        Some "pkg:cargo/foo@0.1.0?uuid=another-draw"]
  /\ yielded_package_uids (yielded from_toml)
     <> yielded_package_uids (yielded from_lock).
Proof.
  repeat split; try (vm_compute; reflexivity).
  vm_compute. discriminate.
Qed.

(** X19: a manifest or lockfile that is the root of the codebase has no
    parent directory to look into: both handlers end with
    [AttributeError] before anything is yielded or changed. *)
Theorem cargo_assemble_at_root_raises
    (build_package_uid : string -> string) (pkg_data : PackageData)
    (resource : nat) (r : Resource) (cb : Codebase) :
  cb !! resource = Some r ->
  pid r = None ->
  CargoTomlHandler_assemble build_package_uid pkg_data resource cb
  = mkOutcome [] cb (Raise AttributeError)
  /\ CargoLockHandler_assemble build_package_uid pkg_data resource cb
     = mkOutcome [] cb (Raise AttributeError).
Proof.
  intros Hr Hpid.
  unfold CargoTomlHandler_assemble, CargoLockHandler_assemble.
  rewrite !(gbind_pure _ _ None)
    by (unfold parent, attr_of; rewrite Hr, Hpid; reflexivity).
  split; reflexivity.
Qed.

(** X20: an [.ABOUT] record without a name mints nothing:
    [AboutFileHandler.assemble] yields the resource alone and leaves the
    tree as it was, even when an [about_resource] is declared. *)
Theorem about_assemble_without_name
    (build_package_uid : string -> string) (pkg_data : PackageData)
    (resource : nat) (r : Resource) (cb : Codebase) :
  cb !! resource = Some r ->
  truthy (name pkg_data) = false ->
  AboutFileHandler_assemble build_package_uid pkg_data resource cb
  = mkOutcome [IResource (Some resource)] cb (Ok tt).
Proof.
  intros Hr Hname. unfold AboutFileHandler_assemble.
  rewrite (gbind_pure _ _ (res_path r)).
  2: { unfold attr_of. rewrite Hr. reflexivity. }
  rewrite (gbind_pure _ _ None).
  2: { unfold lift, pd_purl. rewrite Hname. reflexivity. }
  reflexivity.
Qed.

(** ** What the assemblers yield *)

Lemma yr_gbind {A B} (P : Item -> Prop) (Q : A -> Prop) (Q' : B -> Prop)
    (m : Gen A) (k : A -> Gen B) :
  yields_and_returns P Q m ->
  (forall a, Q a -> yields_and_returns P Q' (k a)) ->
  yields_and_returns P Q' (gbind m k).
Proof.
  intros Hm Hk cb. unfold gbind.
  destruct (Hm cb) as [Hys Hret].
  destruct (m cb) as [ys cb1 [a | e]]; simpl in *.
  - destruct (Hk a (Hret a eq_refl) cb1) as [Hys' Hret'].
    destruct (k a cb1) as [ys' cb2 e']. simpl in *. split.
    + apply Forall_app. split; assumption.
    + exact Hret'.
  - split; [ exact Hys | intros b Hb; discriminate Hb ].
Qed.

Lemma yr_silent {A} (P : Item -> Prop) (Q : A -> Prop) (g : Gen A) :
  (forall cb, yielded (g cb) = []) ->
  (forall cb a, ending (g cb) = Ok a -> Q a) ->
  yields_and_returns P Q g.
Proof.
  intros Hys Hret cb. rewrite Hys. split; [ constructor | apply Hret ].
Qed.

Lemma yr_any {A} (P : Item -> Prop) (g : Gen A) :
  (forall cb, yielded (g cb) = []) ->
  yields_and_returns P (fun _ => True) g.
Proof. intros Hys. apply yr_silent; [ exact Hys | intros; exact I ]. Qed.

Lemma yr_attr_of {A} (P : Item -> Prop) (f : Resource -> A) (r : option nat) :
  yields_and_returns P (fun _ => True) (attr_of f r).
Proof.
  apply yr_any. intros cb. unfold attr_of.
  destruct r as [rid | ]; [ destruct (cb !! rid) | ]; reflexivity.
Qed.

Lemma yr_deref {A} (P : Item -> Prop) (v : option A) :
  yields_and_returns P (fun a => v = Some a) (deref v).
Proof.
  apply yr_silent.
  - intros cb. destruct v; reflexivity.
  - intros cb a. destruct v; simpl; intros H; [ injection H as -> | discriminate H ].
    reflexivity.
Qed.

Lemma yr_lift {A} (P : Item -> Prop) (r : result A) :
  yields_and_returns P (fun a => r = Ok a) (lift r).
Proof.
  apply yr_silent; [ reflexivity | ]. intros cb a H. exact H.
Qed.

Lemma yr_walk (P : Item -> Prop) (r : option nat) :
  yields_and_returns P (fun _ => True) (walk r).
Proof. apply yr_any. intros cb. destruct r; reflexivity. Qed.

Lemma yr_save (P : Item -> Prop) (r : option nat) :
  yields_and_returns P (fun _ => True) (save r).
Proof. apply yr_any. intros cb. destruct r; reflexivity. Qed.

Lemma yr_for_packages_append (P : Item -> Prop) (r : option nat) (uid : string) :
  yields_and_returns P (fun _ => True) (for_packages_append r uid).
Proof. apply yr_any. intros cb. destruct r; reflexivity. Qed.

Lemma yr_name_is (P : Item -> Prop) (child : nat) (v : pyval) :
  yields_and_returns P (fun _ => True) (name_is child v).
Proof. apply yr_any. reflexivity. Qed.

Lemma yr_gret {A} (P : Item -> Prop) (Q : A -> Prop) (a : A) :
  Q a -> yields_and_returns P Q (gret a).
Proof.
  intros Ha. apply yr_silent; [ reflexivity | ].
  intros cb b H. injection H as <-. exact Ha.
Qed.

Lemma yr_yield (P : Item -> Prop) (i : Item) :
  P i -> yields_and_returns P (fun _ => True) (yield i).
Proof. intros Hi cb. split; [ repeat constructor; exact Hi | intros; exact I ]. Qed.

Lemma yr_yield_from (P : Item -> Prop) (items : list Item) :
  Forall P items -> yields_and_returns P (fun _ => True) (yield_from items).
Proof. intros Hall cb. split; [ exact Hall | intros; exact I ]. Qed.

Lemma yr_gfor {X} (P : Item -> Prop) (l : list X) (body : X -> Gen unit) :
  (forall x, yields_and_returns P (fun _ => True) (body x)) ->
  yields_and_returns P (fun _ => True) (gfor l body).
Proof.
  intros Hbody. induction l as [ | x l IH ]; simpl.
  - apply yr_gret. exact I.
  - eapply yr_gbind; [ apply Hbody | intros _ _; exact IH ].
Qed.

Lemma yr_lift_any {A} (P : Item -> Prop) (r : result A) :
  yields_and_returns P (fun _ => True) (lift r).
Proof. apply yr_any. reflexivity. Qed.

Lemma yr_deref_any {A} (P : Item -> Prop) (v : option A) :
  yields_and_returns P (fun _ => True) (deref v).
Proof. apply yr_any. intros cb. destruct v; reflexivity. Qed.

(** Splits a generator into its steps; what is yielded is left to show. *)
Ltac yr_steps :=
  repeat first
    [ eapply (yr_gbind _ (fun _ => True)); [ | intros ? _ ]
    | apply yr_gfor; intros
    | apply yr_lift_any
    | apply yr_deref_any
    | apply yr_attr_of
    | apply yr_walk
    | apply yr_save
    | apply yr_for_packages_append
    | apply yr_name_is
    | apply yr_gret; exact I
    | apply yr_yield
    | apply yr_yield_from
    | match goal with
      | |- yields_and_returns _ _ (match ?x with _ => _ end) => destruct x
      | |- yields_and_returns _ _ (if ?b then _ else _) => destruct b
      end ].

(** X21: [AboutFileHandler.assemble] never yields a dependency, whatever
    the record, the tree and the way the run ends: it yields packages and
    resources only. *)
Theorem about_assemble_yields_no_dependency
    (build_package_uid : string -> string) (pkg_data : PackageData)
    (resource : nat) (cb : Codebase) :
  Forall (fun item => forall dep, item <> IDependency dep)
    (yielded (AboutFileHandler_assemble build_package_uid pkg_data resource cb)).
Proof.
  revert cb.
  enough (H : yields_and_returns (fun item => forall dep, item <> IDependency dep)
                (fun _ => True)
                (AboutFileHandler_assemble build_package_uid pkg_data resource)).
  { intros cb. apply H. }
  unfold AboutFileHandler_assemble.
  yr_steps; intros dep; discriminate.
Qed.

Lemma from_dependent_packages_tagged (dependent_packages : list DependentPackage)
    (datafile_path : string) (ds_id : option string) (u : option string) :
  Forall (tagged_with u)
    (from_dependent_packages dependent_packages datafile_path ds_id u).
Proof.
  unfold from_dependent_packages. apply Forall_map.
  apply Forall_forall. intros dep _. reflexivity.
Qed.

(** The dependency steps of [handle_cargo_toml_and_lock] tag everything
    with the package id they are given. *)
Lemma yr_handle_rest (data : PackageData) (cargo_resource : option nat)
    (cargo_lock_data : option PackageData) (cargo_lock_resource : option nat)
    (u : option string) :
  yields_and_returns (tagged_with u) (fun _ => True)
    (match dependencies data with
     | [] => gret tt
     | dependent_packages =>
         datafile_path <- attr_of res_path cargo_resource ;;
         yield_from (from_dependent_packages dependent_packages datafile_path
                       (datasource_id data) u)
     end ;;;
     yield (IResource cargo_resource) ;;;
     match cargo_lock_resource with
     | Some _ =>
         lock_data <- deref cargo_lock_data ;;
         match dependencies lock_data with
         | [] => gret tt
         | dependent_packages =>
             datafile_path <- attr_of res_path cargo_lock_resource ;;
             yield_from (from_dependent_packages dependent_packages datafile_path
                           (datasource_id lock_data) u)
         end ;;;
         yield (IResource cargo_lock_resource)
     | None => gret tt
     end)%gen.
Proof.
  yr_steps; try exact I; apply from_dependent_packages_tagged.
Qed.

(** X22: whatever [handle_cargo_toml_and_lock] is given and however it
    ends, everything it yields belongs to one package id: the id built
    from the manifest's package URL, or none when the manifest has no
    package URL.  Every dependency yielded, from the manifest or from the
    lockfile, is tagged with it, and a package is yielded only with it. *)
Theorem handle_yields_one_package_uid
    (build_package_uid : string -> string) (parent_dir : option nat)
    (cargo_data : option PackageData) (cargo_resource : option nat)
    (cargo_lock_data : option PackageData) (cargo_lock_resource : option nat)
    (cb : Codebase) :
  let u :=
    match cargo_data with
    | Some data =>
        match pd_purl data with
        | Ok (Some p) => Some (build_package_uid p)
        | _ => None
        end
    | None => None
    end in
  Forall (tagged_with u)
    (yielded (handle_cargo_toml_and_lock build_package_uid parent_dir cargo_data
                cargo_resource cargo_lock_data cargo_lock_resource cb)).
Proof.
  intros u. unfold handle_cargo_toml_and_lock.
  destruct cargo_data as [data | ]; [ | constructor ].
  rewrite (gbind_pure _ _ data) by reflexivity.
  destruct (pd_purl data) as [[p | ] | e] eqn:Hpurl; simpl in u.
  - rewrite (gbind_pure _ _ (Some p)) by reflexivity.
    revert cb.
    enough (H : yields_and_returns (tagged_with u) (fun _ : unit => True)
                  (gbind _ _)) by (intros cb; apply H).
    eapply (yr_gbind _ (fun a => a = u)).
    + eapply (yr_gbind _ (fun _ => True)); [ apply yr_attr_of | intros path _ ].
      eapply (yr_gbind _ (fun pkg => package_uid pkg = build_package_uid p)).
      * apply yr_silent; [ reflexivity | ].
        intros cb pkg H. unfold lift, from_package_data in H. simpl in H.
        rewrite Hpurl in H. simpl in H. injection H as <-. reflexivity.
      * intros pkg Hpkg. cbv zeta.
        eapply (yr_gbind _ (fun _ => True));
          [ apply yr_for_packages_append | intros _ _ ].
        eapply (yr_gbind _ (fun _ => True)); [ apply yr_save | intros _ _ ].
        eapply (yr_gbind _ (fun _ => True)).
        { apply yr_yield. simpl. unfold u. rewrite Hpkg. reflexivity. }
        intros _ _.
        eapply (yr_gbind _ (fun _ => True)); [ apply yr_walk | intros subtree _ ].
        eapply (yr_gbind _ (fun _ => True)).
        { yr_steps. }
        intros _ _. apply yr_gret. unfold u. rewrite Hpkg. reflexivity.
    + intros a ->. apply yr_handle_rest.
  - rewrite (gbind_pure _ _ None) by reflexivity.
    rewrite (gbind_pure _ _ None) by reflexivity.
    apply yr_handle_rest.
  - constructor.
Qed.

(** ** Declared licences and scopes *)

(** The filter of [bower_declared_license] over a list of strings, from
    any point on: the strings that are blank once stripped are dropped. *)
Lemma bower_license_loop (licenses : list string) (acc : list rendered) :
  rfold (fun acc l0 =>
           if truthy l0 then
             (stripped <- py_strip l0 ;;
              Ok (if truthy stripped then acc ++ [Raw l0] else acc)%list)%result
           else Ok acc) (map PStr licenses) acc
  = Ok (acc ++ map (fun s => Raw (PStr s))
                 (List.filter (fun s => negb (String.eqb (strip s) "")) licenses))%list.
Proof.
  revert acc. induction licenses as [ | s licenses IH ]; intros acc.
  - simpl. rewrite app_nil_r. reflexivity.
  - cbn [map rfold List.filter].
    destruct (String.eqb_spec s "") as [-> | Hne].
    + cbn. rewrite IH. reflexivity.
    + assert (Htruthy : truthy (PStr s) = true).
      { cbn. destruct (String.eqb_spec s ""); [ contradiction | reflexivity ]. }
      rewrite Htruthy. cbn [py_strip rbind truthy].
      destruct (negb (String.eqb (strip s) "")); rewrite IH.
      * rewrite <- app_assoc. reflexivity.
      * reflexivity.
Qed.

(** X23: a [license] given as a non-empty list of strings is never refused
    by [BowerJsonHandler.parse]'s normalisation: the declared licences are
    the strings of the list that are not blank, in order. *)
Theorem bower_license_list_keeps_non_blank (licenses : list string) :
  licenses <> [] ->
  bower_declared_license (PList (map PStr licenses))
  = Ok (ListOf (map (fun s => Raw (PStr s))
                  (List.filter (fun s => negb (String.eqb (strip s) "")) licenses))).
Proof.
  intros Hne. unfold bower_declared_license.
  destruct licenses as [ | s licenses ]; [ contradiction | ].
  cbn [truthy map]. change (PStr s :: map PStr licenses) with (map PStr (s :: licenses)).
  rewrite bower_license_loop. reflexivity.
Qed.

(** X24: a [bower.json] whose [license] list holds, after strings, an entry
    that is truthy and not a string (a licence given as a mapping, say) is
    not parsed: stripping that entry raises [AttributeError]. *)
Theorem bower_license_mapping_raises
    (d : list (string * pyval)) (before : list string) (entry : pyval)
    (rest : list pyval) :
  dict_get d "license" PNone = PList (map PStr before ++ entry :: rest) ->
  truthy entry = true ->
  (forall s, entry <> PStr s) ->
  BowerJsonHandler_parse (PDict d) = Raise AttributeError.
Proof.
  intros Hlicense Htruthy Hnot_string.
  assert (Hloop : forall acc,
             rfold (fun acc l0 =>
                      if truthy l0 then
                        (stripped <- py_strip l0 ;;
                         Ok (if truthy stripped then acc ++ [Raw l0] else acc)%list)%result
                      else Ok acc) (map PStr before ++ entry :: rest) acc
             = Raise AttributeError).
  { clear Hlicense. induction before as [ | s before IH ]; intros acc.
    - cbn [map app rfold]. rewrite Htruthy.
      destruct entry; try reflexivity. exfalso. eapply Hnot_string. reflexivity.
    - cbn [map app rfold truthy].
      destruct (negb (String.eqb s "")); cbn [py_strip rbind]; apply IH. }
  unfold BowerJsonHandler_parse. cbn [py_get rbind]. rewrite Hlicense.
  unfold bower_declared_license.
  assert (Hlist : truthy (PList (map PStr before ++ entry :: rest)) = true).
  { destruct before; reflexivity. }
  rewrite Hlist, Hloop. reflexivity.
Qed.

(** The dependency tables [CargoTomlHandler.parse] goes through, from any
    point on: what is added is in the scope of a key that ends with
    [dependencies]. *)
Lemma cargo_toml_tables_loop (items : list (string * pyval))
    (acc out : list DependentPackage) :
  rfold (fun acc kv =>
           if endswith kv.1 "dependencies"
           then (deps <- dependency_mapper kv.2 kv.1 ;; Ok (acc ++ deps)%list)%result
           else Ok acc) items acc = Ok out ->
  exists added,
    out = (acc ++ added)%list
    /\ Forall (fun dep =>
                 endswith (scope dep) "dependencies" = true
                 /\ (exists table, In (scope dep, table) items)
                 /\ is_resolved dep = false) added.
Proof.
  revert acc. induction items as [ | [key table] items IH ]; intros acc H.
  - simpl in H. injection H as <-. exists []. rewrite app_nil_r.
    split; [ reflexivity | constructor ].
  - cbn [rfold] in H. cbn [fst snd] in H.
    destruct (endswith key "dependencies") eqn:Ekey.
    + destruct (dependency_mapper table key) as [deps | e] eqn:Edeps;
        cbn [rbind] in H; [ | discriminate H ].
      destruct (IH _ H) as (added & -> & Hadded).
      exists (deps ++ added)%list. split; [ rewrite app_assoc; reflexivity | ].
      apply Forall_app. split.
      * unfold dependency_mapper in Edeps.
        destruct table; cbn [py_items rbind] in Edeps; try discriminate Edeps.
        destruct (rfold _ d (None, [])) as [st | e] eqn:Efold;
          cbn [rbind] in Edeps; [ | discriminate Edeps ].
        injection Edeps as <-.
        destruct (dependency_mapper_loop _ _ _ _ _ Efold) as (new & Hst & _ & Hshape).
        simpl in Hst. rewrite Hst.
        eapply Forall_impl; [ exact Hshape | ].
        intros dep (Hsc & _ & Hres). rewrite Hsc.
        split; [ exact Ekey | ]. split; [ | exact Hres ].
        eexists. left. reflexivity.
      * eapply Forall_impl; [ exact Hadded | ].
        intros dep (Hend & [tbl Hin] & Hres).
        split; [ exact Hend | ]. split; [ | exact Hres ].
        exists tbl. right. exact Hin.
    + destruct (IH _ H) as (added & -> & Hadded).
      exists added. split; [ reflexivity | ].
      eapply Forall_impl; [ exact Hadded | ].
      intros dep (Hend & [tbl Hin] & Hres).
      split; [ exact Hend | ]. split; [ | exact Hres ].
      exists tbl. right. exact Hin.
Qed.

(** X25: every dependency of the record [CargoTomlHandler.parse] yields
    comes from an entry of the [package] table whose key ends with
    [dependencies]: its scope is that key, and it is not resolved.  The
    record takes its name and version from the same table. *)
Theorem cargo_toml_dependencies_come_from_package_table
    (d c : list (string * pyval)) (pd : PackageData) :
  dict_get d "package" (PDict []) = PDict c ->
  CargoTomlHandler_parse (PDict d) = Ok [Data pd] ->
  name pd = dict_get c "name" PNone
  /\ version pd = dict_get c "version" PNone
  /\ Forall (fun dep =>
               endswith (scope dep) "dependencies" = true
               /\ (exists table, In (scope dep, table) c)
               /\ is_resolved dep = false) (dependencies pd).
Proof.
  intros Hcore H. unfold CargoTomlHandler_parse in H.
  cbn [py_get rbind] in H. rewrite Hcore in H. cbn [py_get py_items rbind] in H.
  destruct (py_strip _) as [description | e]; cbn [rbind] in H; [ | discriminate H ].
  destruct (party_mapper _ _) as [parties | e]; cbn [rbind] in H; [ | discriminate H ].
  destruct (py_extend _ _) as [kw | e]; cbn [rbind] in H; [ | discriminate H ].
  destruct (rfold _ c []) as [deps | e] eqn:Efold; cbn [rbind] in H;
    [ | discriminate H ].
  injection H as <-. cbn [name version dependencies].
  destruct (cargo_toml_tables_loop _ _ _ Efold) as (added & Hout & Hadded).
  simpl in Hout. subst deps. repeat split. exact Hadded.
Qed.

(** ** The further properties at example inputs *)

(** [cargo_toml_without_authors_raises] on the manifest of [foo]. *)
Lemma cargo_toml_without_authors_example :
  CargoTomlHandler_parse
    (PDict [("package", PDict [("name", PStr "foo"); ("version", PStr "0.1.0")]);
            ("dependencies", PDict [("serde", PStr "1.0")])])
  = Raise TypeError.
Proof.
  apply (cargo_toml_without_authors_raises _
           [("name", PStr "foo"); ("version", PStr "0.1.0")]);
    [ reflexivity | reflexivity | left; reflexivity ].
Defined.

(** [dependency_mapper_one_per_entry] on a [dev-dependencies] table. *)
Lemma dependency_mapper_example :
  let deps :=
    [mkDependentPackage "pkg:cargo/serde" (Raw (PStr "1.0")) "dev-dependencies"
       false (PBool false) false;
     mkDependentPackage "pkg:cargo/rand" (YamlDump (PDict [("version", PStr "0.8")]))
       "dev-dependencies" false (PBool true) false;
     mkDependentPackage "pkg:cargo/my%20dep" (Raw (PStr "2")) "dev-dependencies"
       false (PBool false) false] in
  Forall2 (fun kv dep =>
             PackageURL_to_string (Some "cargo") (PStr kv.1) PNone = Ok (purl dep))
          example_dev_table deps
  /\ Forall (fun dep =>
               scope dep = "dev-dependencies" /\ is_resolved dep = false
               /\ is_runtime dep =
                    negb (endswith "dev-dependencies" "dev-dependencies"
                          || endswith "dev-dependencies" "build-dependencies")) deps.
Proof.
  apply (dependency_mapper_one_per_entry "dev-dependencies" example_dev_table).
  reflexivity.
Defined.

(** [dependency_mapper_first_requirement_unbound] on a number given as
    requirement. *)
Lemma dependency_mapper_unbound_example :
  dependency_mapper (PDict [("serde", PInt 1)]) "dependencies"
  = Raise UnboundLocalError.
Proof.
  apply (dependency_mapper_first_requirement_unbound "dependencies" "serde"
           (PInt 1) []); discriminate.
Defined.

(** [cargo_lock_parse_one_resolved_dependency_per_entry] on the lockfile
    that lists [serde 1.0.190]. *)
Lemma cargo_lock_parse_example :
  exists pd entries,
    [Data example_lock_data] = [Data pd]
    /\ name pd = PNone /\ version pd = PNone
    /\ py_iter (dict_get
                  [("package", PList [PDict [("name", PStr "serde");
                                             ("version", PStr "1.0.190")]])]
                  "package" (PList [])) = Ok entries
    /\ Forall2 (fun entry dep =>
                  exists e,
                    entry = PDict e
                    /\ PackageURL_to_string (Some "cargo") (dict_get e "name" PNone)
                         (dict_get e "version" PNone) = Ok (purl dep)
                    /\ extracted_requirement dep = Raw (dict_get e "version" PNone)
                    /\ scope dep = "dependencies" /\ is_runtime dep = true
                    /\ is_optional dep = PBool false /\ is_resolved dep = true)
               entries (dependencies pd).
Proof.
  apply (cargo_lock_parse_one_resolved_dependency_per_entry
           [("package", PList [PDict [("name", PStr "serde");
                                      ("version", PStr "1.0.190")]])]
           [Data example_lock_data]).
  reflexivity.
Defined.

(** Every character of a string that holds neither bracket. *)
Ltac each_character :=
  let c := fresh "c" in
  let Hc := fresh "Hc" in
  intros c Hc; simpl in Hc;
  repeat (destruct Hc as [<- | Hc]; [ repeat split | ]);
  contradiction.

(** [parse_person_plain_name] on a name. *)
Lemma parse_person_plain_example :
  parse_person "Barney Rubble" = (Some (strip "Barney Rubble"), None).
Proof.
  apply (parse_person_plain_name "Barney Rubble"); [ discriminate | each_character ].
Defined.

(** [parse_person_name_and_email] on a name and an address. *)
Lemma parse_person_email_example :
  parse_person ("Barney Rubble " +:+ "<" +:+ "b@rubble.com" +:+ ">" +:+ "")
  = (Some (strip "Barney Rubble "),
     Some (strip_with (fun c => is_char "<" c || is_char ">" c || is_char " " c)
             ("<" +:+ "b@rubble.com" +:+ ">"))).
Proof.
  apply (parse_person_name_and_email "Barney Rubble " "b@rubble.com" "");
    [ discriminate | each_character | discriminate | each_character ].
Defined.

(** [about_owner_party] on [zlib.ABOUT], which names no owner. *)
Lemma about_owner_example :
  map party_name (parties example_about_data) = [Repr PNone].
Proof.
  apply (about_owner_party
           [("name", PStr "zlib"); ("version", PStr "1.2.11");
            ("about_resource", PStr "zlib.tar.gz")] example_about_data).
  reflexivity.
Defined.

(** [bower_parse_dependencies] on a manifest with one dependency of each
    kind. *)
Lemma bower_dependencies_example :
  exists runtime development,
    dependencies (attrs (the_record (BowerJsonHandler_parse (PDict example_bower_both))))
    = (runtime ++ development)%list
    /\ Forall2 (fun kv dep =>
                  PackageURL_to_string (Some "bower") (PStr kv.1) PNone = Ok (purl dep)
                  /\ extracted_requirement dep = Raw kv.2
                  /\ scope dep = "dependencies" /\ is_runtime dep = true
                  /\ is_optional dep = PBool false /\ is_resolved dep = false)
               [("jquery", PStr "^3.0.0")] runtime
    /\ Forall2 (fun kv dep =>
                  PackageURL_to_string (Some "bower") (PStr kv.1) PNone = Ok (purl dep)
                  /\ extracted_requirement dep = Raw kv.2
                  /\ scope dep = "devDependencies" /\ is_runtime dep = false
                  /\ is_optional dep = PBool true /\ is_resolved dep = false)
               [("qunit", PStr "~1.0")] development.
Proof.
  apply (bower_parse_dependencies example_bower_both
           [("jquery", PStr "^3.0.0")] [("qunit", PStr "~1.0")]); reflexivity.
Defined.

(** [bower_parse_one_party_per_author] on the manifest with three
    authors. *)
Lemma bower_parties_example :
  length (parties (attrs (the_record
                            (BowerJsonHandler_parse (PDict example_bower_authors)))))
  = 3%nat
  /\ Forall (fun party => role party = "author")
       (parties (attrs (the_record
                          (BowerJsonHandler_parse (PDict example_bower_authors))))).
Proof.
  apply (bower_parse_one_party_per_author example_bower_authors
           [PStr "Ann Author"; PDict [("name", PStr "Bob Builder")];
            PDict [("email", PStr "carol@example.org")]]); reflexivity.
Defined.

(** [cargo_toml_assemble_unnamed_leaves_tree] on the directory with two
    lockfiles. *)
Lemma unnamed_manifest_leaves_tree_example :
  final (CargoTomlHandler_assemble example_uid example_unnamed_data 1
           example_unnamed_two_locks)
  = example_unnamed_two_locks.
Proof.
  apply (cargo_toml_assemble_unnamed_leaves_tree example_uid example_unnamed_data 1
           example_unnamed_two_locks).
  reflexivity.
Defined.

(** [handle_owns_manifest_and_subtree] on the example directory. *)
Lemma handle_owns_example :
  let cb' :=
    final (handle_cargo_toml_and_lock example_uid (Some 0%nat)
             (Some example_toml_data) (Some 1%nat) (Some example_lock_data)
             (Some 2%nat) example_codebase) in
  cb' = assigned (example_uid "pkg:cargo/foo@0.1.0") [1%nat; 2%nat]
          (alter (append_for_package (example_uid "pkg:cargo/foo@0.1.0")) 1%nat
             example_codebase)
  /\ (forall rid, rid <> 1%nat -> rid ∉ [1%nat; 2%nat] ->
                  cb' !! rid = example_codebase !! rid).
Proof.
  apply (handle_owns_manifest_and_subtree example_uid example_toml_data 1 0
           example_manifest example_codebase "pkg:cargo/foo@0.1.0"
           (Some example_lock_data) (Some 2%nat)); reflexivity.
Defined.

(** [handle_merges_manifest_and_lock] on the example directory. *)
Lemma handle_merges_example :
  let o := handle_cargo_toml_and_lock example_uid (Some 0%nat)
             (Some example_toml_data) (Some 1%nat) (Some example_lock_data)
             (Some 2%nat) example_codebase in
  ending o = Ok tt
  /\ yielded o
     = ([IPackage (mkPackage (type example_toml_data) (name example_toml_data)
                    (version example_toml_data) "pkg:cargo/foo@0.1.0"
                    (example_uid "pkg:cargo/foo@0.1.0") ["proj/Cargo.toml"])]
        ++ from_dependent_packages (dependencies example_toml_data)
             "proj/Cargo.toml" (datasource_id example_toml_data)
             (Some (example_uid "pkg:cargo/foo@0.1.0"))
        ++ IResource (Some 1%nat)
           :: from_dependent_packages (dependencies example_lock_data)
                "proj/Cargo.lock" (datasource_id example_lock_data)
                (Some (example_uid "pkg:cargo/foo@0.1.0"))
        ++ [IResource (Some 2%nat)])%list.
Proof.
  apply (handle_merges_manifest_and_lock example_uid example_toml_data
           example_lock_data 1 2 0 example_manifest
           (mkResource "proj/Cargo.lock" "Cargo.lock" true (Some 0%nat) [] []
              (Some example_lock_data))
           example_codebase (Some "pkg:cargo/foo@0.1.0")); reflexivity.
Defined.

(** [cargo_assemble_at_root_raises] on a manifest that is the root. *)
Lemma cargo_assemble_at_root_example :
  CargoTomlHandler_assemble example_uid example_toml_data 0 example_root_manifest
  = mkOutcome [] example_root_manifest (Raise AttributeError)
  /\ CargoLockHandler_assemble example_uid example_toml_data 0 example_root_manifest
     = mkOutcome [] example_root_manifest (Raise AttributeError).
Proof.
  apply (cargo_assemble_at_root_raises example_uid example_toml_data 0
           (mkResource "Cargo.toml" "Cargo.toml" true None [] []
              (Some example_toml_data))
           example_root_manifest); reflexivity.
Defined.

(** [about_assemble_without_name] on [third_party/]. *)
Lemma about_without_name_example :
  AboutFileHandler_assemble example_uid example_about_unnamed_data 1
    example_about_codebase
  = mkOutcome [IResource (Some 1%nat)] example_about_codebase (Ok tt).
Proof.
  apply (about_assemble_without_name example_uid example_about_unnamed_data 1
           (mkResource "third_party/zlib.ABOUT" "zlib.ABOUT" true (Some 0%nat) [] []
              (Some example_about_data))
           example_about_codebase); reflexivity.
Defined.

(** [bower_license_list_keeps_non_blank] on a list with a blank entry. *)
Lemma bower_license_list_example :
  bower_declared_license (PList (map PStr ["MIT"; "  "; "Apache-2.0"]))
  = Ok (ListOf (map (fun s => Raw (PStr s))
                  (List.filter (fun s => negb (String.eqb (strip s) ""))
                     ["MIT"; "  "; "Apache-2.0"]))).
Proof.
  apply (bower_license_list_keeps_non_blank ["MIT"; "  "; "Apache-2.0"]).
  discriminate.
Defined.

(** [bower_license_mapping_raises] on a licence given as a mapping. *)
Lemma bower_license_mapping_example :
  BowerJsonHandler_parse
    (PDict [("name", PStr "widget");
            ("license", PList [PStr "MIT"; PDict [("type", PStr "BSD")]])])
  = Raise AttributeError.
Proof.
  apply (bower_license_mapping_raises _ ["MIT"] (PDict [("type", PStr "BSD")]) []);
    [ reflexivity | reflexivity | discriminate ].
Defined.

(** [cargo_toml_dependencies_come_from_package_table] on the manifest whose
    [package] table holds a [dependencies] table. *)
Lemma cargo_toml_scopes_example :
  let c := [("authors", PList []);
            ("dependencies", PDict [("serde", PStr "1.0")])] in
  name example_nested_data = dict_get c "name" PNone
  /\ version example_nested_data = dict_get c "version" PNone
  /\ Forall (fun dep =>
               endswith (scope dep) "dependencies" = true
               /\ (exists table, In (scope dep, table) c)
               /\ is_resolved dep = false) (dependencies example_nested_data).
Proof.
  apply (cargo_toml_dependencies_come_from_package_table
           [("package", PDict [("authors", PList []);
                               ("dependencies", PDict [("serde", PStr "1.0")])])]);
    reflexivity.
Defined.

(** [companion_symmetry] on the directory whose manifest declares a
    dependency of its own, with a different draw in each run. *)
Lemma companion_symmetry_example :
  let records (mint : string -> string) :=
    [IPackage (mkPackage (Some "cargo") (PStr "foo") (PStr "0.1.0")
                 "pkg:cargo/foo@0.1.0" (mint "pkg:cargo/foo@0.1.0")
                 ["proj/Cargo.toml"]);
     IDependency
       (mkDependency
          (mkDependentPackage "pkg:cargo/serde" (Raw (PStr "1.0")) "dependencies"
             true (PBool false) false)
          "proj/Cargo.toml" (Some "cargo_toml") (Some (mint "pkg:cargo/foo@0.1.0")));
     IResource (Some 1%nat);
     IDependency
       (mkDependency
          (mkDependentPackage "pkg:cargo/serde@1.0.190" (Raw (PStr "1.0.190"))
             "dependencies" true (PBool false) true)
          "proj/Cargo.lock" (Some "cargo_lock") (Some (mint "pkg:cargo/foo@0.1.0")));
     IResource (Some 2%nat)] in
  let tree (mint : string -> string) :=
    assigned (mint "pkg:cargo/foo@0.1.0") [1%nat; 2%nat]
      (alter (append_for_package (mint "pkg:cargo/foo@0.1.0")) 1%nat
         example_full_codebase) in
  CargoTomlHandler_assemble example_uid example_full_data 1 example_full_codebase
  = mkOutcome (records example_uid) (tree example_uid) (Ok tt)
  /\ CargoLockHandler_assemble example_other_uid example_lock_data 2
       example_full_codebase
     = mkOutcome (records example_other_uid) (tree example_other_uid) (Ok tt).
Proof.
  exact (companion_symmetry example_uid example_other_uid example_full_codebase
           1 2 0
           (mkResource "proj/Cargo.toml" "Cargo.toml" true (Some 0%nat) [] []
              (Some example_full_data))
           (mkResource "proj/Cargo.lock" "Cargo.lock" true (Some 0%nat) [] []
              (Some example_lock_data))
           (mkResource "proj" "proj" false None [1; 2]%nat [] None)
           example_full_data example_lock_data (Some "pkg:cargo/foo@0.1.0")
           eq_refl eq_refl eq_refl eq_refl eq_refl eq_refl eq_refl eq_refl eq_refl
           eq_refl).
Defined.
